(** * UnwindPlan: register rules, frame-address values, rows and plans

  A shallow embedding of lldb/Symbol/UnwindPlan.h.

  Conventions of the embedding:
  - a fixed-width C++ integer is a [Z]; a conversion that narrows
    (uint32_t stored into a uint16_t member) is written out as a
    reduction; signed arithmetic that leaves its range is undefined in
    C++ and is [None] here;
  - a pointer [const uint8_t *] is an address in [Z], [nullptr] is 0;
  - a C++ union is the member that was written last (its active
    member); reading another member is undefined in C++ and is [None]
    here, so an accessor that reads a union member returns an [option];
  - a member function that mutates [*this] takes the object and returns
    the new one; an out-parameter becomes part of the result;
  - a [const Row *] into [m_row_list] is the index of the row, and a
    null pointer is [None]. *)

From stdpp Require Import gmap list sorting.
From Stdlib Require Import ZArith Lia.

Local Open Scope Z_scope.

(** ** Machine integers *)

Definition INT32_MIN : Z := - 2 ^ 31.
Definition INT32_MAX : Z := 2 ^ 31 - 1.
Definition UINT32_MAX : Z := 2 ^ 32 - 1.
Definition UINT64_MAX : Z := 2 ^ 64 - 1.


Definition is_uint16 (z : Z) : Prop := 0 <= z < 2 ^ 16.

(** The values an int32_t and an int64_t parameter can take. *)
Definition is_int32 (z : Z) : Prop := INT32_MIN <= z <= INT32_MAX.

(** Conversion to uint16_t: reduction modulo 2^16. *)
Definition to_uint16 (z : Z) : Z := z mod 2 ^ 16.

Definition nullptr : Z := 0.

(** Modelled from the spec: the macro LLDB_INVALID_REGNUM, which the header
uses and lldb-defines.h (not among the sources) defines; the spec calls it
the sentinel "invalid register" value.  The theorems use of the number only
that it is none of the register numbers and constants of the examples. *)
Definition LLDB_INVALID_REGNUM : Z := UINT32_MAX.

(** ** UnwindPlan::Row::AbstractRegisterLocation *)

Module AbstractRegisterLocation.

Inductive RestoreType : Set :=
| unspecified
| undefined
| same
| atCFAPlusOffset
| isCFAPlusOffset
| atAFAPlusOffset
| isAFAPlusOffset
| inOtherRegister
| atDWARFExpression
| isDWARFExpression
| isConstant.

#[global] Instance RestoreType_eq_dec : EqDecision RestoreType.
Proof. solve_decision. Defined.

(** The anonymous union [m_location], as its active member. *)
Inductive location_union : Set :=
| offset (v : Z)                       (* int32_t offset *)
| reg_num (v : Z)                      (* uint32_t reg_num *)
| expr (opcodes : Z) (length : Z)      (* const uint8_t *; uint16_t *)
| constant_value (v : Z).              (* uint64_t constant_value *)

#[global] Instance location_union_eq_dec : EqDecision location_union.
Proof. solve_decision. Defined.

Record t : Set := mk { m_type : RestoreType; m_location : location_union }.

#[global] Instance t_eq_dec : EqDecision t.
Proof. solve_decision. Defined.

(** Reads of the union members. *)
Definition read_offset (u : location_union) : option Z :=
  match u with offset v => Some v | _ => None end.
Definition read_reg_num (u : location_union) : option Z :=
  match u with reg_num v => Some v | _ => None end.
Definition read_expr (u : location_union) : option (Z * Z) :=
  match u with expr p n => Some (p, n) | _ => None end.
Definition read_constant_value (u : location_union) : option Z :=
  match u with constant_value v => Some v | _ => None end.

(** [AbstractRegisterLocation() : m_location() {}] with
    [m_type = unspecified]: value-initialisation zeroes the first member
    of the union. *)
Definition default : t := {| m_type := unspecified; m_location := offset 0 |}.

Definition SetUnspecified (l : t) : t :=
  {| m_type := unspecified; m_location := m_location l |}.
Definition SetUndefined (l : t) : t :=
  {| m_type := undefined; m_location := m_location l |}.
Definition SetSame (l : t) : t :=
  {| m_type := same; m_location := m_location l |}.

Definition IsSame (l : t) : bool := bool_decide (m_type l = same).
Definition IsUnspecified (l : t) : bool := bool_decide (m_type l = unspecified).
Definition IsUndefined (l : t) : bool := bool_decide (m_type l = undefined).
Definition IsCFAPlusOffset (l : t) : bool := bool_decide (m_type l = isCFAPlusOffset).
Definition IsAtCFAPlusOffset (l : t) : bool := bool_decide (m_type l = atCFAPlusOffset).
Definition IsAFAPlusOffset (l : t) : bool := bool_decide (m_type l = isAFAPlusOffset).
Definition IsAtAFAPlusOffset (l : t) : bool := bool_decide (m_type l = atAFAPlusOffset).
Definition IsInOtherRegister (l : t) : bool := bool_decide (m_type l = inOtherRegister).
Definition IsAtDWARFExpression (l : t) : bool := bool_decide (m_type l = atDWARFExpression).
Definition IsDWARFExpression (l : t) : bool := bool_decide (m_type l = isDWARFExpression).
Definition IsConstant (l : t) : bool := bool_decide (m_type l = isConstant).

Definition SetIsConstant (_ : t) (value : Z) : t :=
  {| m_type := isConstant; m_location := constant_value value |}.

(** [return m_location.constant_value;] with no test of [m_type]. *)
Definition GetConstant (l : t) : option Z := read_constant_value (m_location l).

Definition SetAtCFAPlusOffset (_ : t) (off : Z) : t :=
  {| m_type := atCFAPlusOffset; m_location := offset off |}.
Definition SetIsCFAPlusOffset (_ : t) (off : Z) : t :=
  {| m_type := isCFAPlusOffset; m_location := offset off |}.
Definition SetAtAFAPlusOffset (_ : t) (off : Z) : t :=
  {| m_type := atAFAPlusOffset; m_location := offset off |}.
Definition SetIsAFAPlusOffset (_ : t) (off : Z) : t :=
  {| m_type := isAFAPlusOffset; m_location := offset off |}.

Definition SetInRegister (_ : t) (r : Z) : t :=
  {| m_type := inOtherRegister; m_location := reg_num r |}.

Definition GetRegisterNumber (l : t) : option Z :=
  if bool_decide (m_type l = inOtherRegister)
  then read_reg_num (m_location l)
  else Some LLDB_INVALID_REGNUM.

Definition GetLocationType (l : t) : RestoreType := m_type l.

Definition GetOffset (l : t) : option Z :=
  match m_type l with
  | atCFAPlusOffset | isCFAPlusOffset | atAFAPlusOffset | isAFAPlusOffset =>
      read_offset (m_location l)
  | _ => Some 0
  end.

(** [GetDWARFExpr(const uint8_t **opcodes, uint16_t &len)]: the pair
    written to [*opcodes] and [len]. *)
Definition GetDWARFExpr (l : t) : option (Z * Z) :=
  if bool_decide (m_type l = atDWARFExpression)
     || bool_decide (m_type l = isDWARFExpression)
  then read_expr (m_location l)
  else Some (nullptr, 0).

Definition GetDWARFExpressionBytes (l : t) : option Z :=
  if bool_decide (m_type l = atDWARFExpression)
     || bool_decide (m_type l = isDWARFExpression)
  then fst <$> read_expr (m_location l)
  else Some nullptr.

Definition GetDWARFExpressionLength (l : t) : option Z :=
  if bool_decide (m_type l = atDWARFExpression)
     || bool_decide (m_type l = isDWARFExpression)
  then snd <$> read_expr (m_location l)
  else Some 0.

(** Modelled from the spec: SetAtDWARFExpression is declared in the header
    and defined in UnwindPlan.cpp, which is not among the sources.
    "Mutators each set the tag and payload atomically"; the uint32_t length
    goes into the uint16_t member [expr.length] declared in the header, as
    in FAValue::SetIsDWARFExpression. *)
Definition SetAtDWARFExpression (_ : t) (opcodes len : Z) : t :=
  {| m_type := atDWARFExpression; m_location := expr opcodes (to_uint16 len) |}.

(** Modelled from the spec: SetIsDWARFExpression is declared in the header
    and defined in UnwindPlan.cpp, which is not among the sources; as
    SetAtDWARFExpression, with the other expression tag. *)
Definition SetIsDWARFExpression (_ : t) (opcodes len : Z) : t :=
  {| m_type := isDWARFExpression; m_location := expr opcodes (to_uint16 len) |}.

(** The tags whose payload is the [offset] member. *)
Definition is_offset_tag (k : RestoreType) : bool :=
  match k with
  | atCFAPlusOffset | isCFAPlusOffset | atAFAPlusOffset | isAFAPlusOffset => true
  | _ => false
  end.

Definition is_expression_tag (k : RestoreType) : bool :=
  match k with
  | atDWARFExpression | isDWARFExpression => true
  | _ => false
  end.

(** The tag agrees with the active member of the union: what every
    sequence of setters establishes. *)
Definition consistent (l : t) : Prop :=
  match m_type l with
  | unspecified | undefined | same => True
  | atCFAPlusOffset | isCFAPlusOffset | atAFAPlusOffset | isAFAPlusOffset =>
      is_Some (read_offset (m_location l))
  | inOtherRegister => is_Some (read_reg_num (m_location l))
  | atDWARFExpression | isDWARFExpression => is_Some (read_expr (m_location l))
  | isConstant => is_Some (read_constant_value (m_location l))
  end.

(** *** Sequences of setter calls

A call of one of the setters that the header defines inline. *)
Inductive mutation : Set :=
| DoSetUnspecified
| DoSetUndefined
| DoSetSame
| DoSetIsConstant (value : Z)
| DoSetAtCFAPlusOffset (off : Z)
| DoSetIsCFAPlusOffset (off : Z)
| DoSetAtAFAPlusOffset (off : Z)
| DoSetIsAFAPlusOffset (off : Z)
| DoSetInRegister (r : Z).

Definition mutate (m : mutation) (l : t) : t :=
match m with
| DoSetUnspecified => SetUnspecified l
| DoSetUndefined => SetUndefined l
| DoSetSame => SetSame l
| DoSetIsConstant value => SetIsConstant l value
| DoSetAtCFAPlusOffset off => SetAtCFAPlusOffset l off
| DoSetIsCFAPlusOffset off => SetIsCFAPlusOffset l off
| DoSetAtAFAPlusOffset off => SetAtAFAPlusOffset l off
| DoSetIsAFAPlusOffset off => SetIsAFAPlusOffset l off
| DoSetInRegister r => SetInRegister l r
end.

(** The calls of a list, one after the other on the same object. *)
Definition mutate_all (ms : list mutation) (l : t) : t :=
foldl (λ l m, mutate m l) l ms.

(** The predicates of the header, each with the tag it is named after. *)
Definition predicates : list (RestoreType * (t → bool)) :=
[ (same, IsSame);
  (unspecified, IsUnspecified);
  (undefined, IsUndefined);
  (isCFAPlusOffset, IsCFAPlusOffset);
  (atCFAPlusOffset, IsAtCFAPlusOffset);
  (isAFAPlusOffset, IsAFAPlusOffset);
  (atAFAPlusOffset, IsAtAFAPlusOffset);
  (inOtherRegister, IsInOtherRegister);
  (atDWARFExpression, IsAtDWARFExpression);
  (isDWARFExpression, IsDWARFExpression);
  (isConstant, IsConstant) ].

(** How many of the predicates answer true. *)
Definition holding (l : t) : nat :=
length (List.filter (λ kf, kf.2 l) predicates).

End AbstractRegisterLocation.

(** ** The rule a location holds

The variant RegisterRule of the specification: a tag with the payload of
the tag. *)

Module RegisterRule.

Import AbstractRegisterLocation.

Inductive t : Set :=
| Unspecified
| Undefined
| Same
| AtCFAPlusOffset (off : Z)
| IsCFAPlusOffset (off : Z)
| AtAFAPlusOffset (off : Z)
| IsAFAPlusOffset (off : Z)
| InOtherRegister (r : Z)
| AtExpression (opcodes len : Z)
| IsExpression (opcodes len : Z)
| IsConstant (c : Z).

(** The location that the setter of the rule's tag makes. *)
Definition make (rule : t) : AbstractRegisterLocation.t :=
match rule with
| Unspecified => SetUnspecified default
| Undefined => SetUndefined default
| Same => SetSame default
| AtCFAPlusOffset off => SetAtCFAPlusOffset default off
| IsCFAPlusOffset off => SetIsCFAPlusOffset default off
| AtAFAPlusOffset off => SetAtAFAPlusOffset default off
| IsAFAPlusOffset off => SetIsAFAPlusOffset default off
| InOtherRegister r => SetInRegister default r
| AtExpression opcodes len => SetAtDWARFExpression default opcodes len
| IsExpression opcodes len => SetIsDWARFExpression default opcodes len
| IsConstant c => SetIsConstant default c
end.

(** What a reader sees of a location: its tag from GetLocationType and the
payload from the accessor of the tag. *)
Definition observe (l : AbstractRegisterLocation.t) : option t :=
match GetLocationType l with
| unspecified => Some Unspecified
| undefined => Some Undefined
| same => Some Same
| atCFAPlusOffset => AtCFAPlusOffset <$> GetOffset l
| isCFAPlusOffset => IsCFAPlusOffset <$> GetOffset l
| atAFAPlusOffset => AtAFAPlusOffset <$> GetOffset l
| isAFAPlusOffset => IsAFAPlusOffset <$> GetOffset l
| inOtherRegister => InOtherRegister <$> GetRegisterNumber l
| atDWARFExpression => (λ e, AtExpression e.1 e.2) <$> GetDWARFExpr l
| isDWARFExpression => (λ e, IsExpression e.1 e.2) <$> GetDWARFExpr l
| isConstant => IsConstant <$> GetConstant l
end.

(** The length of an expression fits the uint16_t member that holds it;
the other payloads are stored as they are given. *)
Definition fits (rule : t) : Prop :=
match rule with
| AtExpression _ len | IsExpression _ len => is_uint16 len
| _ => True
end.

(** The rule as the location holds it: the length of an expression reduced
to the uint16_t member, every other payload as it was given. *)
Definition stored (rule : t) : t :=
match rule with
| AtExpression opcodes len => AtExpression opcodes (to_uint16 len)
| IsExpression opcodes len => IsExpression opcodes (to_uint16 len)
| _ => rule
end.

(** The rule that a setter call of the header leaves behind. *)
Definition of_mutation (m : mutation) : t :=
match m with
| DoSetUnspecified => Unspecified
| DoSetUndefined => Undefined
| DoSetSame => Same
| DoSetIsConstant value => IsConstant value
| DoSetAtCFAPlusOffset off => AtCFAPlusOffset off
| DoSetIsCFAPlusOffset off => IsCFAPlusOffset off
| DoSetAtAFAPlusOffset off => AtAFAPlusOffset off
| DoSetIsAFAPlusOffset off => IsAFAPlusOffset off
| DoSetInRegister r => InOtherRegister r
end.

End RegisterRule.

(** ** UnwindPlan::Row::FAValue *)

Module FAValue.

Inductive ValueType : Set :=
| unspecified
| isRegisterPlusOffset
| isRegisterDereferenced
| isDWARFExpression
| isRaSearch
| isConstant.

#[global] Instance ValueType_eq_dec : EqDecision ValueType.
Proof. solve_decision. Defined.

(** The anonymous union [m_value], as its active member.  The members of
the struct [reg] are written one at a time by the setters, so each is
either a value or indeterminate ([None]). *)
Inductive value_union : Set :=
| reg (reg_num : option Z) (offset : option Z)  (* uint32_t; int32_t *)
| expr (opcodes : Z) (length : Z)                (* const uint8_t *; uint16_t *)
| ra_search_offset (v : Z)                       (* int32_t *)
| constant (v : Z).                              (* uint64_t *)

#[global] Instance value_union_eq_dec : EqDecision value_union.
Proof. solve_decision. Defined.

Record t : Set := mk { m_type : ValueType; m_value : value_union }.

#[global] Instance t_eq_dec : EqDecision t.
Proof. solve_decision. Defined.

Definition read_reg_reg_num (u : value_union) : option Z :=
match u with reg r _ => r | _ => None end.
Definition read_reg_offset (u : value_union) : option Z :=
match u with reg _ o => o | _ => None end.
Definition read_expr (u : value_union) : option (Z * Z) :=
match u with expr p n => Some (p, n) | _ => None end.
Definition read_ra_search_offset (u : value_union) : option Z :=
match u with ra_search_offset v => Some v | _ => None end.
Definition read_constant (u : value_union) : option Z :=
match u with constant v => Some v | _ => None end.

(** Writes of one member of the struct [reg]: the other member keeps its
value when [reg] is the active member and is indeterminate otherwise. *)
Definition write_reg_reg_num (u : value_union) (r : Z) : value_union :=
match u with reg _ o => reg (Some r) o | _ => reg (Some r) None end.
Definition write_reg_offset (u : value_union) (o : Z) : value_union :=
match u with reg r _ => reg r (Some o) | _ => reg None (Some o) end.

(** [FAValue() : m_value() {}] with [m_type = unspecified]. *)
Definition default : t :=
{| m_type := unspecified; m_value := reg (Some 0) (Some 0) |}.

Definition SetUnspecified (v : t) : t :=
{| m_type := unspecified; m_value := m_value v |}.

Definition IsUnspecified (v : t) : bool := bool_decide (m_type v = unspecified).

Definition SetRaSearch (_ : t) (off : Z) : t :=
{| m_type := isRaSearch; m_value := ra_search_offset off |}.

Definition IsRegisterPlusOffset (v : t) : bool :=
bool_decide (m_type v = isRegisterPlusOffset).

Definition SetIsRegisterPlusOffset (_ : t) (r off : Z) : t :=
{| m_type := isRegisterPlusOffset; m_value := reg (Some r) (Some off) |}.

Definition IsRegisterDereferenced (v : t) : bool :=
bool_decide (m_type v = isRegisterDereferenced).

Definition SetIsRegisterDereferenced (v : t) (r : Z) : t :=
{| m_type := isRegisterDereferenced; m_value := write_reg_reg_num (m_value v) r |}.

Definition IsDWARFExpression (v : t) : bool :=
bool_decide (m_type v = isDWARFExpression).

(** [m_value.expr.length = len;] stores a uint32_t into a uint16_t. *)
Definition SetIsDWARFExpression (_ : t) (opcodes len : Z) : t :=
{| m_type := isDWARFExpression; m_value := expr opcodes (to_uint16 len) |}.

Definition IsConstant (v : t) : bool := bool_decide (m_type v = isConstant).

Definition SetIsConstant (_ : t) (c : Z) : t :=
{| m_type := isConstant; m_value := constant c |}.

(** [return m_value.constant;] with no test of [m_type]. *)
Definition GetConstant (v : t) : option Z := read_constant (m_value v).

Definition GetRegisterNumber (v : t) : option Z :=
if bool_decide (m_type v = isRegisterDereferenced)
   || bool_decide (m_type v = isRegisterPlusOffset)
then read_reg_reg_num (m_value v)
else Some LLDB_INVALID_REGNUM.

Definition GetValueType (v : t) : ValueType := m_type v.

Definition GetOffset (v : t) : option Z :=
match m_type v with
| isRegisterPlusOffset => read_reg_offset (m_value v)
| isRaSearch => read_ra_search_offset (m_value v)
| _ => Some 0
end.

(** [if (m_type == isRegisterPlusOffset) m_value.reg.offset += delta;]
The addition is on int32_t: it needs a determinate offset and a sum in
range, otherwise the call is undefined ([None]). *)
Definition IncOffset (v : t) (delta : Z) : option t :=
if bool_decide (m_type v = isRegisterPlusOffset) then
  match read_reg_offset (m_value v) with
  | Some o =>
      if bool_decide (INT32_MIN <= o + delta <= INT32_MAX)
      then Some {| m_type := m_type v;
                   m_value := write_reg_offset (m_value v) (o + delta) |}
      else None
  | None => None
  end
else Some v.

(** [if (m_type == isRegisterPlusOffset) m_value.reg.offset = offset;] *)
Definition SetOffset (v : t) (off : Z) : t :=
if bool_decide (m_type v = isRegisterPlusOffset)
then {| m_type := m_type v; m_value := write_reg_offset (m_value v) off |}
else v.

Definition GetDWARFExpr (v : t) : option (Z * Z) :=
if bool_decide (m_type v = isDWARFExpression)
then read_expr (m_value v)
else Some (nullptr, 0).

Definition GetDWARFExpressionBytes (v : t) : option Z :=
if bool_decide (m_type v = isDWARFExpression)
then fst <$> read_expr (m_value v)
else Some nullptr.

Definition GetDWARFExpressionLength (v : t) : option Z :=
if bool_decide (m_type v = isDWARFExpression)
then snd <$> read_expr (m_value v)
else Some 0.

(** The tags that carry a register number. *)
Definition is_register_tag (k : ValueType) : bool :=
match k with
| isRegisterPlusOffset | isRegisterDereferenced => true
| _ => false
end.

(** The tags that carry an offset. *)
Definition is_offset_tag (k : ValueType) : bool :=
match k with
| isRegisterPlusOffset | isRaSearch => true
| _ => false
end.

(** The tag agrees with the active member of the union. *)
Definition consistent (v : t) : Prop :=
match m_type v with
| unspecified => True
| isRegisterPlusOffset =>
    is_Some (read_reg_reg_num (m_value v)) ∧ is_Some (read_reg_offset (m_value v))
| isRegisterDereferenced => is_Some (read_reg_reg_num (m_value v))
| isDWARFExpression => is_Some (read_expr (m_value v))
| isRaSearch => is_Some (read_ra_search_offset (m_value v))
| isConstant => is_Some (read_constant (m_value v))
end.

(** *** Sequences of calls

A call of one of the member functions that change a frame-address value. *)
Inductive mutation : Set :=
| DoSetUnspecified
| DoSetRaSearch (off : Z)
| DoSetIsRegisterPlusOffset (r off : Z)
| DoSetIsRegisterDereferenced (r : Z)
| DoSetIsDWARFExpression (opcodes len : Z)
| DoSetIsConstant (c : Z)
| DoIncOffset (delta : Z)
| DoSetOffset (off : Z).

Definition mutate (m : mutation) (v : t) : option t :=
match m with
| DoSetUnspecified => Some (SetUnspecified v)
| DoSetRaSearch off => Some (SetRaSearch v off)
| DoSetIsRegisterPlusOffset r off => Some (SetIsRegisterPlusOffset v r off)
| DoSetIsRegisterDereferenced r => Some (SetIsRegisterDereferenced v r)
| DoSetIsDWARFExpression opcodes len => Some (SetIsDWARFExpression v opcodes len)
| DoSetIsConstant c => Some (SetIsConstant v c)
| DoIncOffset delta => IncOffset v delta
| DoSetOffset off => Some (SetOffset v off)
end.

(** The calls of a list, one after the other on the same object; [None]
once a call is undefined. *)
Fixpoint mutate_all (ms : list mutation) (v : t) : option t :=
match ms with
| [] => Some v
| m :: ms => mutate m v ≫= mutate_all ms
end.

(** The predicates of the header, each with the tag it is named after;
there is none for [isRaSearch]. *)
Definition predicates : list (ValueType * (t → bool)) :=
[ (unspecified, IsUnspecified);
  (isRegisterPlusOffset, IsRegisterPlusOffset);
  (isRegisterDereferenced, IsRegisterDereferenced);
  (isDWARFExpression, IsDWARFExpression);
  (isConstant, IsConstant) ].

(** How many of the predicates answer true. *)
Definition holding (v : t) : nat :=
length (List.filter (λ kf, kf.2 v) predicates).

End FAValue.

(** ** What a frame-address value holds

A tag of FAValue with the payload of the tag. *)

Module FrameAddressValue.

Import FAValue.

Inductive t : Set :=
| Unspecified
| RegisterPlusOffset (r off : Z)
| RegisterDereferenced (r : Z)
| Expression (opcodes len : Z)
| ReturnAddressSearch (off : Z)
| Constant (c : Z).

(** The setter of the tag, called on a value [prev]. *)
Definition set (fv : t) (prev : FAValue.t) : FAValue.t :=
match fv with
| Unspecified => SetUnspecified prev
| RegisterPlusOffset r off => SetIsRegisterPlusOffset prev r off
| RegisterDereferenced r => SetIsRegisterDereferenced prev r
| Expression opcodes len => SetIsDWARFExpression prev opcodes len
| ReturnAddressSearch off => SetRaSearch prev off
| Constant c => SetIsConstant prev c
end.

(** What a reader sees: the tag from GetValueType and the payload from the
accessors of the tag. *)
Definition observe (v : FAValue.t) : option t :=
match GetValueType v with
| unspecified => Some Unspecified
| isRegisterPlusOffset =>
    r ← GetRegisterNumber v; off ← GetOffset v; Some (RegisterPlusOffset r off)
| isRegisterDereferenced => RegisterDereferenced <$> GetRegisterNumber v
| isDWARFExpression => (λ e, Expression e.1 e.2) <$> GetDWARFExpr v
| isRaSearch => ReturnAddressSearch <$> GetOffset v
| isConstant => Constant <$> GetConstant v
end.

(** The length of an expression fits the uint16_t member that holds it. *)
Definition fits (fv : t) : Prop :=
match fv with
| Expression _ len => is_uint16 len
| _ => True
end.

End FrameAddressValue.

(** ** UnwindPlan::Row *)

Module Row.

Module ARL := AbstractRegisterLocation.

(** [std::map<uint32_t, AbstractRegisterLocation>] is a finite map. *)
Record t : Type := mk {
  m_offset : Z;                                     (* int64_t *)
  m_cfa_value : FAValue.t;
  m_afa_value : FAValue.t;
  m_register_locations : gmap Z ARL.t;
  m_unspecified_registers_are_undefined : bool
}.

(** Modelled from the spec: the constructor Row::Row() is declared in the
header and defined in UnwindPlan.cpp, which is not among the sources.  Each
member takes its default member initialiser of the header ([m_offset = 0],
[m_unspecified_registers_are_undefined = false]) or its default
constructor. *)
Definition Row : t :=
{| m_offset := 0;
   m_cfa_value := FAValue.default;
   m_afa_value := FAValue.default;
   m_register_locations := ∅;
   m_unspecified_registers_are_undefined := false |}.

(** Modelled from the spec: GetRegisterInfo is declared in the header and
defined in UnwindPlan.cpp, which is not among the sources.  "Mapping
lookup"; the result is the returned bool with the content of the
out-parameter [register_location] after the call. *)
Definition GetRegisterInfo (row : t) (reg_num : Z) (register_location : ARL.t)
  : bool * ARL.t :=
match m_register_locations row !! reg_num with
| Some l => (true, l)
| None => (false, register_location)
end.

(** Modelled from the spec: SetRegisterInfo is declared in the header and
defined in UnwindPlan.cpp, which is not among the sources.
"Insert-or-replace, unconditional." *)
Definition SetRegisterInfo (row : t) (reg_num : Z) (register_location : ARL.t) : t :=
{| m_offset := m_offset row;
   m_cfa_value := m_cfa_value row;
   m_afa_value := m_afa_value row;
   m_register_locations := <[reg_num := register_location]> (m_register_locations row);
   m_unspecified_registers_are_undefined := m_unspecified_registers_are_undefined row |}.

(** Modelled from the spec: RemoveRegisterInfo is declared in the header and
defined in UnwindPlan.cpp, which is not among the sources.  "Erase if
present, no error if absent." *)
Definition RemoveRegisterInfo (row : t) (reg_num : Z) : t :=
{| m_offset := m_offset row;
   m_cfa_value := m_cfa_value row;
   m_afa_value := m_afa_value row;
   m_register_locations := delete reg_num (m_register_locations row);
   m_unspecified_registers_are_undefined := m_unspecified_registers_are_undefined row |}.

Definition GetOffset (row : t) : Z := m_offset row.

Definition SetOffset (row : t) (offset : Z) : t :=
{| m_offset := offset;
   m_cfa_value := m_cfa_value row;
   m_afa_value := m_afa_value row;
   m_register_locations := m_register_locations row;
   m_unspecified_registers_are_undefined := m_unspecified_registers_are_undefined row |}.


Definition GetCFAValue (row : t) : FAValue.t := m_cfa_value row.
Definition GetAFAValue (row : t) : FAValue.t := m_afa_value row.

Definition SetUnspecifiedRegistersAreUndefined (row : t) (unspec_is_undef : bool) : t :=
{| m_offset := m_offset row;
   m_cfa_value := m_cfa_value row;
   m_afa_value := m_afa_value row;
   m_register_locations := m_register_locations row;
   m_unspecified_registers_are_undefined := unspec_is_undef |}.

Definition GetUnspecifiedRegistersAreUndefined (row : t) : bool :=
m_unspecified_registers_are_undefined row.

(** *** The guarded setters

Each returns the bool of the C++ function with the row after the call. *)

(** Modelled from the spec: SetRegisterLocationToAtCFAPlusOffset is declared
in the header and defined in UnwindPlan.cpp, which is not among the sources.
"If no existing rule for regnum, always set and return success.  If a rule
exists, only overwrite when can_replace is true.  Return false (no mutation)
when the guard forbids the overwrite." *)
Definition SetRegisterLocationToAtCFAPlusOffset
  (row : t) (reg_num offset : Z) (can_replace : bool) : bool * t :=
match m_register_locations row !! reg_num with
| Some _ =>
    if can_replace
    then (true, SetRegisterInfo row reg_num (ARL.SetAtCFAPlusOffset ARL.default offset))
    else (false, row)
| None => (true, SetRegisterInfo row reg_num (ARL.SetAtCFAPlusOffset ARL.default offset))
end.

(** Modelled from the spec: SetRegisterLocationToIsCFAPlusOffset is declared
in the header and defined in UnwindPlan.cpp, which is not among the sources;
the guard of the family, see SetRegisterLocationToAtCFAPlusOffset. *)
Definition SetRegisterLocationToIsCFAPlusOffset
  (row : t) (reg_num offset : Z) (can_replace : bool) : bool * t :=
match m_register_locations row !! reg_num with
| Some _ =>
    if can_replace
    then (true, SetRegisterInfo row reg_num (ARL.SetIsCFAPlusOffset ARL.default offset))
    else (false, row)
| None => (true, SetRegisterInfo row reg_num (ARL.SetIsCFAPlusOffset ARL.default offset))
end.

(** Modelled from the spec: SetRegisterLocationToUndefined is declared in
the header and defined in UnwindPlan.cpp, which is not among the sources.
The guard of the family, "additionally gated by
can_replace_only_if_unspecified, which restricts the overwrite to cases
where the existing rule is specifically Unspecified". *)
Definition SetRegisterLocationToUndefined
  (row : t) (reg_num : Z) (can_replace can_replace_only_if_unspecified : bool)
  : bool * t :=
match m_register_locations row !! reg_num with
| Some existing =>
    if can_replace
       && (negb can_replace_only_if_unspecified || ARL.IsUnspecified existing)
    then (true, SetRegisterInfo row reg_num (ARL.SetUndefined ARL.default))
    else (false, row)
| None => (true, SetRegisterInfo row reg_num (ARL.SetUndefined ARL.default))
end.

(** Modelled from the spec: SetRegisterLocationToUnspecified is declared in
the header and defined in UnwindPlan.cpp, which is not among the sources;
the guard of the family, see SetRegisterLocationToAtCFAPlusOffset. *)
Definition SetRegisterLocationToUnspecified
  (row : t) (reg_num : Z) (can_replace : bool) : bool * t :=
match m_register_locations row !! reg_num with
| Some _ =>
    if can_replace
    then (true, SetRegisterInfo row reg_num (ARL.SetUnspecified ARL.default))
    else (false, row)
| None => (true, SetRegisterInfo row reg_num (ARL.SetUnspecified ARL.default))
end.

(** Modelled from the spec: SetRegisterLocationToRegister is declared in the
header and defined in UnwindPlan.cpp, which is not among the sources; the
guard of the family, see SetRegisterLocationToAtCFAPlusOffset. *)
Definition SetRegisterLocationToRegister
  (row : t) (reg_num other_reg_num : Z) (can_replace : bool) : bool * t :=
match m_register_locations row !! reg_num with
| Some _ =>
    if can_replace
    then (true, SetRegisterInfo row reg_num (ARL.SetInRegister ARL.default other_reg_num))
    else (false, row)
| None => (true, SetRegisterInfo row reg_num (ARL.SetInRegister ARL.default other_reg_num))
end.

(** Modelled from the spec: SetRegisterLocationToSame is declared in the
header and defined in UnwindPlan.cpp, which is not among the sources.  The
header names its flag [must_replace]; the spec describes one guard for the
whole family and reads this flag as the replace flag, which is what is
modelled here. *)
Definition SetRegisterLocationToSame
  (row : t) (reg_num : Z) (must_replace : bool) : bool * t :=
match m_register_locations row !! reg_num with
| Some _ =>
    if must_replace
    then (true, SetRegisterInfo row reg_num (ARL.SetSame ARL.default))
    else (false, row)
| None => (true, SetRegisterInfo row reg_num (ARL.SetSame ARL.default))
end.

(** Modelled from the spec: SetRegisterLocationToIsDWARFExpression is
declared in the header and defined in UnwindPlan.cpp, which is not among the
sources; the guard of the family, see
SetRegisterLocationToAtCFAPlusOffset. *)
Definition SetRegisterLocationToIsDWARFExpression
  (row : t) (reg_num opcodes len : Z) (can_replace : bool) : bool * t :=
match m_register_locations row !! reg_num with
| Some _ =>
    if can_replace
    then (true, SetRegisterInfo row reg_num (ARL.SetIsDWARFExpression ARL.default opcodes len))
    else (false, row)
| None => (true, SetRegisterInfo row reg_num (ARL.SetIsDWARFExpression ARL.default opcodes len))
end.

(** Modelled from the spec: SetRegisterLocationToIsConstant is declared in
the header and defined in UnwindPlan.cpp, which is not among the sources;
the guard of the family, see SetRegisterLocationToAtCFAPlusOffset. *)
Definition SetRegisterLocationToIsConstant
  (row : t) (reg_num constant : Z) (can_replace : bool) : bool * t :=
match m_register_locations row !! reg_num with
| Some _ =>
    if can_replace
    then (true, SetRegisterInfo row reg_num (ARL.SetIsConstant ARL.default constant))
    else (false, row)
| None => (true, SetRegisterInfo row reg_num (ARL.SetIsConstant ARL.default constant))
end.

(** *** Calls of the guarded setters

A call of one of the eight setters, with its arguments after [reg_num]. *)
Inductive setter_call : Set :=
| ToAtCFAPlusOffset (offset : Z) (can_replace : bool)
| ToIsCFAPlusOffset (offset : Z) (can_replace : bool)
| ToUndefined (can_replace can_replace_only_if_unspecified : bool)
| ToUnspecified (can_replace : bool)
| ToRegister (other_reg_num : Z) (can_replace : bool)
| ToSame (must_replace : bool)
| ToIsDWARFExpression (opcodes len : Z) (can_replace : bool)
| ToIsConstant (constant : Z) (can_replace : bool).

Definition call (c : setter_call) (row : t) (reg_num : Z) : bool * t :=
match c with
| ToAtCFAPlusOffset offset can_replace =>
    SetRegisterLocationToAtCFAPlusOffset row reg_num offset can_replace
| ToIsCFAPlusOffset offset can_replace =>
    SetRegisterLocationToIsCFAPlusOffset row reg_num offset can_replace
| ToUndefined can_replace can_replace_only_if_unspecified =>
    SetRegisterLocationToUndefined row reg_num can_replace
      can_replace_only_if_unspecified
| ToUnspecified can_replace =>
    SetRegisterLocationToUnspecified row reg_num can_replace
| ToRegister other_reg_num can_replace =>
    SetRegisterLocationToRegister row reg_num other_reg_num can_replace
| ToSame must_replace => SetRegisterLocationToSame row reg_num must_replace
| ToIsDWARFExpression opcodes len can_replace =>
    SetRegisterLocationToIsDWARFExpression row reg_num opcodes len can_replace
| ToIsConstant constant can_replace =>
    SetRegisterLocationToIsConstant row reg_num constant can_replace
end.

(** The replace flag of a call. *)
Definition replace_flag (c : setter_call) : bool :=
match c with
| ToAtCFAPlusOffset _ f | ToIsCFAPlusOffset _ f | ToUndefined f _
| ToUnspecified f | ToRegister _ f | ToSame f
| ToIsDWARFExpression _ _ f | ToIsConstant _ f => f
end.

(** The second flag of the Undefined setter; the other setters have none. *)
Definition only_if_unspecified (c : setter_call) : bool :=
match c with
| ToUndefined _ g => g
| _ => false
end.

(** The rule that a call is to set. *)
Definition target (c : setter_call) : RegisterRule.t :=
match c with
| ToAtCFAPlusOffset offset _ => RegisterRule.AtCFAPlusOffset offset
| ToIsCFAPlusOffset offset _ => RegisterRule.IsCFAPlusOffset offset
| ToUndefined _ _ => RegisterRule.Undefined
| ToUnspecified _ => RegisterRule.Unspecified
| ToRegister other_reg_num _ => RegisterRule.InOtherRegister other_reg_num
| ToSame _ => RegisterRule.Same
| ToIsDWARFExpression opcodes len _ => RegisterRule.IsExpression opcodes len
| ToIsConstant constant _ => RegisterRule.IsConstant constant
end.

(** [SetRegisterInfo] for each register of a list in turn, with the
location that the setter of its rule makes. *)
Definition set_rules (row : t) (rules : list (Z * RegisterRule.t)) : t :=
foldl (λ row rr, SetRegisterInfo row rr.1 (RegisterRule.make rr.2)) row rules.

(** *** Writes through the references to the frame-address values

[FAValue &GetCFAValue() { return m_cfa_value; }]: a call of a member
function of FAValue on the reference changes the member of the row. *)
Definition with_cfa_value (row : t) (v : FAValue.t) : t :=
{| m_offset := m_offset row;
   m_cfa_value := v;
   m_afa_value := m_afa_value row;
   m_register_locations := m_register_locations row;
   m_unspecified_registers_are_undefined := m_unspecified_registers_are_undefined row |}.

(** [FAValue &GetAFAValue() { return m_afa_value; }] *)
Definition with_afa_value (row : t) (v : FAValue.t) : t :=
{| m_offset := m_offset row;
   m_cfa_value := m_cfa_value row;
   m_afa_value := v;
   m_register_locations := m_register_locations row;
   m_unspecified_registers_are_undefined := m_unspecified_registers_are_undefined row |}.



End Row.

(** ** UnwindPlan *)

Module UnwindPlan.

(** Modelled from the spec: lldb_private::LazyBool is defined in
lldb-private-enumerations.h, which is not among the sources; the header
names only [eLazyBoolCalculate].  "Each one of {true, false,
unknown/to-be-computed}." *)
Inductive LazyBool : Set :=
| eLazyBoolCalculate
| eLazyBoolNo
| eLazyBoolYes.

(** Modelled from the spec: lldb::RegisterKind is defined in
lldb-enumerations.h, which is not among the sources; the header names only
[eRegisterKindDWARF].  "A register-numbering-scheme tag"; every other scheme
is [eRegisterKindOther]. *)
Inductive RegisterKind : Set :=
| eRegisterKindDWARF
| eRegisterKindOther (scheme : nat).

(** Modelled from the spec: AddressRange is defined in
lldb/Core/AddressRange.h, which is not among the sources; a half-open range
[[a, b)] of addresses. *)
Definition AddressRange : Set := (Z * Z)%type.

(** Modelled from the spec: ConstString is defined in
lldb/Utility/ConstString.h, which is not among the sources; "an optional
human-readable source-name label", [None] when it is empty. *)
Definition ConstString : Set := option (list Byte.byte).

Record t : Type := mk {
  m_row_list : list Row.t;                          (* std::vector<Row> *)
  m_plan_valid_ranges : list AddressRange;
  m_register_kind : RegisterKind;
  m_return_addr_register : Z;                       (* uint32_t *)
  m_source_name : ConstString;
  m_plan_is_sourced_from_compiler : LazyBool;
  m_plan_is_valid_at_all_instruction_locations : LazyBool;
  m_plan_is_for_signal_trap : LazyBool
}.

(** [UnwindPlan(lldb::RegisterKind reg_kind)]: the members that the
initialiser list leaves out are default-constructed, hence empty. *)
Definition UnwindPlan (reg_kind : RegisterKind) : t :=
{| m_row_list := [];
   m_plan_valid_ranges := [];
   m_register_kind := reg_kind;
   m_return_addr_register := LLDB_INVALID_REGNUM;
   m_source_name := None;
   m_plan_is_sourced_from_compiler := eLazyBoolCalculate;
   m_plan_is_valid_at_all_instruction_locations := eLazyBoolCalculate;
   m_plan_is_for_signal_trap := eLazyBoolCalculate |}.

(** The plan with another row list: the other members are kept. *)
Definition with_row_list (p : t) (rows : list Row.t) : t :=
{| m_row_list := rows;
   m_plan_valid_ranges := m_plan_valid_ranges p;
   m_register_kind := m_register_kind p;
   m_return_addr_register := m_return_addr_register p;
   m_source_name := m_source_name p;
   m_plan_is_sourced_from_compiler := m_plan_is_sourced_from_compiler p;
   m_plan_is_valid_at_all_instruction_locations :=
     m_plan_is_valid_at_all_instruction_locations p;
   m_plan_is_for_signal_trap := m_plan_is_for_signal_trap p |}.

(** Modelled from the spec: AppendRow is declared in the header and defined
in UnwindPlan.cpp, which is not among the sources.  "Adds at the end;
caller's responsibility to maintain non-decreasing code-offset order." *)
Definition AppendRow (p : t) (row : Row.t) : t :=
with_row_list p (m_row_list p ++ [row]).

(** The walk of InsertRow over the rows, from the front: past the rows
before the new offset, then in front of the first row after it, or onto
the row at it. *)
Fixpoint insert_row (row : Row.t) (replace_existing : bool) (rows : list Row.t)
  : list Row.t :=
match rows with
| [] => [row]
| r :: rest =>
    if bool_decide (Row.GetOffset r < Row.GetOffset row)
    then r :: insert_row row replace_existing rest
    else if bool_decide (Row.GetOffset row < Row.GetOffset r)
    then row :: r :: rest
    else if replace_existing then row :: rest else r :: rest
end.

(** Modelled from the spec: InsertRow is declared in the header and defined
in UnwindPlan.cpp, which is not among the sources.  "Inserts maintaining
sorted order by code offset; if a row at the same offset exists, replaces it
only when replace_existing is true, otherwise the insert is a no-op
(existing row wins)." *)
Definition InsertRow (p : t) (row : Row.t) (replace_existing : bool) : t :=
with_row_list p (insert_row row replace_existing (m_row_list p)).

(** Modelled from the spec: GetLastRow is declared in the header and defined
in UnwindPlan.cpp, which is not among the sources.  "Direct positional
access"; "empty plan -> absent/null result". *)
Definition GetLastRow (p : t) : option nat :=
match m_row_list p with
| [] => None
| _ :: _ => Some (length (m_row_list p) - 1)%nat
end.

(** Modelled from the spec: IsValidRowIndex is declared in the header and
defined in UnwindPlan.cpp, which is not among the sources. *)
Definition IsValidRowIndex (p : t) (idx : nat) : bool :=
bool_decide (idx < length (m_row_list p))%nat.

(** Modelled from the spec: GetRowAtIndex is declared in the header and
defined in UnwindPlan.cpp, which is not among the sources.  "Out-of-range
index is a checked error (returns a null/absent indicator)." *)
Definition GetRowAtIndex (p : t) (idx : nat) : option nat :=
if IsValidRowIndex p idx then Some idx else None.

(** The row a [const Row *] of the plan points to. *)
Definition row_at (p : t) (ptr : option nat) : option Row.t :=
ptr ≫= λ i, m_row_list p !! i.

(** The search of GetRowForFunctionOffset: a walk over the rows from index
[i], which keeps in [best] the last row seen whose offset is at most
[offset] and stops at the first row beyond [offset]. *)
Fixpoint search_rows (rows : list Row.t) (offset : Z) (i : nat) (best : option nat)
  : option nat :=
match rows with
| [] => best
| r :: rest =>
    if bool_decide (Row.GetOffset r <= offset)
    then search_rows rest offset (S i) (Some i)
    else best
end.

(** Modelled from the spec: GetRowForFunctionOffset is declared in the
header and defined in UnwindPlan.cpp, which is not among the sources.
"Returns the row with the greatest code offset <= the given offset.  If
offset is absent/unknown, return the last row in the sequence.  Returns none
if the plan has no rows.  This is a binary/linear search over a sorted
sequence by code offset." *)
Definition GetRowForFunctionOffset (p : t) (offset : option Z) : option nat :=
match offset with
| Some o => search_rows (m_row_list p) o 0 None
| None => GetLastRow p
end.

Definition GetRegisterKind (p : t) : RegisterKind := m_register_kind p.

Definition SetRegisterKind (p : t) (kind : RegisterKind) : t :=
{| m_row_list := m_row_list p;
   m_plan_valid_ranges := m_plan_valid_ranges p;
   m_register_kind := kind;
   m_return_addr_register := m_return_addr_register p;
   m_source_name := m_source_name p;
   m_plan_is_sourced_from_compiler := m_plan_is_sourced_from_compiler p;
   m_plan_is_valid_at_all_instruction_locations :=
     m_plan_is_valid_at_all_instruction_locations p;
   m_plan_is_for_signal_trap := m_plan_is_for_signal_trap p |}.

Definition SetReturnAddressRegister (p : t) (regnum : Z) : t :=
{| m_row_list := m_row_list p;
   m_plan_valid_ranges := m_plan_valid_ranges p;
   m_register_kind := m_register_kind p;
   m_return_addr_register := regnum;
   m_source_name := m_source_name p;
   m_plan_is_sourced_from_compiler := m_plan_is_sourced_from_compiler p;
   m_plan_is_valid_at_all_instruction_locations :=
     m_plan_is_valid_at_all_instruction_locations p;
   m_plan_is_for_signal_trap := m_plan_is_for_signal_trap p |}.

Definition GetReturnAddressRegister (p : t) : Z := m_return_addr_register p.

Definition GetInitialCFARegister (p : t) : option Z :=
match m_row_list p with
| [] => Some LLDB_INVALID_REGNUM
| front :: _ => FAValue.GetRegisterNumber (Row.GetCFAValue front)
end.

Definition SetPlanValidAddressRanges (p : t) (ranges : list AddressRange) : t :=
{| m_row_list := m_row_list p;
   m_plan_valid_ranges := ranges;
   m_register_kind := m_register_kind p;
   m_return_addr_register := m_return_addr_register p;
   m_source_name := m_source_name p;
   m_plan_is_sourced_from_compiler := m_plan_is_sourced_from_compiler p;
   m_plan_is_valid_at_all_instruction_locations :=
     m_plan_is_valid_at_all_instruction_locations p;
   m_plan_is_for_signal_trap := m_plan_is_for_signal_trap p |}.

(** Modelled from the spec: SetSourceName is declared in the header and
defined in UnwindPlan.cpp, which is not among the sources; it stores the
label. *)
Definition SetSourceName (p : t) (name : list Byte.byte) : t :=
{| m_row_list := m_row_list p;
   m_plan_valid_ranges := m_plan_valid_ranges p;
   m_register_kind := m_register_kind p;
   m_return_addr_register := m_return_addr_register p;
   m_source_name := Some name;
   m_plan_is_sourced_from_compiler := m_plan_is_sourced_from_compiler p;
   m_plan_is_valid_at_all_instruction_locations :=
     m_plan_is_valid_at_all_instruction_locations p;
   m_plan_is_for_signal_trap := m_plan_is_for_signal_trap p |}.

Definition GetSourcedFromCompiler (p : t) : LazyBool :=
m_plan_is_sourced_from_compiler p.

Definition SetSourcedFromCompiler (p : t) (from_compiler : LazyBool) : t :=
{| m_row_list := m_row_list p;
   m_plan_valid_ranges := m_plan_valid_ranges p;
   m_register_kind := m_register_kind p;
   m_return_addr_register := m_return_addr_register p;
   m_source_name := m_source_name p;
   m_plan_is_sourced_from_compiler := from_compiler;
   m_plan_is_valid_at_all_instruction_locations :=
     m_plan_is_valid_at_all_instruction_locations p;
   m_plan_is_for_signal_trap := m_plan_is_for_signal_trap p |}.

Definition GetUnwindPlanValidAtAllInstructions (p : t) : LazyBool :=
m_plan_is_valid_at_all_instruction_locations p.

Definition SetUnwindPlanValidAtAllInstructions (p : t) (valid_at_all_insn : LazyBool) : t :=
{| m_row_list := m_row_list p;
   m_plan_valid_ranges := m_plan_valid_ranges p;
   m_register_kind := m_register_kind p;
   m_return_addr_register := m_return_addr_register p;
   m_source_name := m_source_name p;
   m_plan_is_sourced_from_compiler := m_plan_is_sourced_from_compiler p;
   m_plan_is_valid_at_all_instruction_locations := valid_at_all_insn;
   m_plan_is_for_signal_trap := m_plan_is_for_signal_trap p |}.

Definition GetUnwindPlanForSignalTrap (p : t) : LazyBool :=
m_plan_is_for_signal_trap p.

Definition SetUnwindPlanForSignalTrap (p : t) (is_for_signal_trap : LazyBool) : t :=
{| m_row_list := m_row_list p;
   m_plan_valid_ranges := m_plan_valid_ranges p;
   m_register_kind := m_register_kind p;
   m_return_addr_register := m_return_addr_register p;
   m_source_name := m_source_name p;
   m_plan_is_sourced_from_compiler := m_plan_is_sourced_from_compiler p;
   m_plan_is_valid_at_all_instruction_locations :=
     m_plan_is_valid_at_all_instruction_locations p;
   m_plan_is_for_signal_trap := is_for_signal_trap |}.

(** [int GetRowCount() const { return m_row_list.size(); }] *)
Definition GetRowCount (p : t) : Z := Z.of_nat (length (m_row_list p)).

(** [Clear()]: every member is assigned but [m_return_addr_register]. *)
Definition Clear (p : t) : t :=
{| m_row_list := [];
   m_plan_valid_ranges := [];
   m_register_kind := eRegisterKindDWARF;
   m_return_addr_register := m_return_addr_register p;
   m_source_name := None;
   m_plan_is_sourced_from_compiler := eLazyBoolCalculate;
   m_plan_is_valid_at_all_instruction_locations := eLazyBoolCalculate;
   m_plan_is_for_signal_trap := eLazyBoolCalculate |}.

(** The order of two rows by code offset. *)
Definition row_le (a b : Row.t) : Prop := Row.GetOffset a <= Row.GetOffset b.
Definition row_lt (a b : Row.t) : Prop := Row.GetOffset a < Row.GetOffset b.

#[global] Instance row_le_dec : RelDecision row_le.
Proof. intros a b. unfold row_le. apply _. Defined.

#[global] Instance row_lt_dec : RelDecision row_lt.
Proof. intros a b. unfold row_lt. apply _. Defined.

(** The rows have non-decreasing code offsets. *)
Definition sorted (p : t) : Prop := StronglySorted row_le (m_row_list p).

(** The rows have increasing code offsets: at most one row per offset. *)
Definition strictly_sorted (p : t) : Prop := StronglySorted row_lt (m_row_list p).

(** The plan after [AppendRow] of each row of a list in turn, from a new
plan. *)
Definition appended (reg_kind : RegisterKind) (rows : list Row.t) : t :=
foldl AppendRow (UnwindPlan reg_kind) rows.

(** The plan after [InsertRow] of each row of a list in turn, each with its
[replace_existing], from a new plan. *)
Definition inserted (reg_kind : RegisterKind) (calls : list (Row.t * bool)) : t :=
foldl (λ p call, InsertRow p call.1 call.2) (UnwindPlan reg_kind) calls.

(** *** Calls of the setters of the plan

A call of one of the setters that the header defines inline. *)
Inductive setter_call : Type :=
| CallSetRegisterKind (kind : RegisterKind)
| CallSetReturnAddressRegister (regnum : Z)
| CallSetPlanValidAddressRanges (ranges : list AddressRange)
| CallSetSourcedFromCompiler (from_compiler : LazyBool)
| CallSetUnwindPlanValidAtAllInstructions (valid_at_all_insn : LazyBool)
| CallSetUnwindPlanForSignalTrap (is_for_signal_trap : LazyBool).

Definition call (c : setter_call) (p : t) : t :=
match c with
| CallSetRegisterKind kind => SetRegisterKind p kind
| CallSetReturnAddressRegister regnum => SetReturnAddressRegister p regnum
| CallSetPlanValidAddressRanges ranges => SetPlanValidAddressRanges p ranges
| CallSetSourcedFromCompiler from_compiler => SetSourcedFromCompiler p from_compiler
| CallSetUnwindPlanValidAtAllInstructions valid_at_all_insn =>
    SetUnwindPlanValidAtAllInstructions p valid_at_all_insn
| CallSetUnwindPlanForSignalTrap is_for_signal_trap =>
    SetUnwindPlanForSignalTrap p is_for_signal_trap
end.

(** The calls of a list, one after the other on the same plan. *)
Definition call_all (cs : list setter_call) (p : t) : t :=
foldl (λ p c, call c p) p cs.

(** The member that a setter assigns, by its place in the class. *)
Definition member (c : setter_call) : nat :=
match c with
| CallSetPlanValidAddressRanges _ => 1
| CallSetRegisterKind _ => 2
| CallSetReturnAddressRegister _ => 3
| CallSetSourcedFromCompiler _ => 5
| CallSetUnwindPlanValidAtAllInstructions _ => 6
| CallSetUnwindPlanForSignalTrap _ => 7
end%nat.

End UnwindPlan.

Module ARL := AbstractRegisterLocation.
Module FA := FAValue.
Module UP := UnwindPlan.

(** ** Example values *)

(** [SetIsConstant(7)] followed by [SetSame()]: the tag is [same] and the
union still holds the constant. *)
Definition same_after_constant : ARL.t :=
ARL.SetSame (ARL.SetIsConstant ARL.default 7).

(** [SetIsConstant(7)] followed by [SetUnspecified()] on a frame-address
value. *)
Definition unspecified_after_constant : FA.t :=
FA.SetUnspecified (FA.SetIsConstant FA.default 7).

(** A frame-address value [SP + 16], with [SP] as register 31. *)
Definition sp_plus_16 : FA.t := FA.SetIsRegisterPlusOffset FA.default 31 16.

(** A return-address search at offset 8. *)
Definition ra_search_8 : FA.t := FA.SetRaSearch FA.default 8.

(** A plan whose return-address register was set to register 30. *)
Definition plan_with_return_register : UP.t :=
UP.SetReturnAddressRegister (UP.UnwindPlan UP.eRegisterKindDWARF) 30.

(** A row with the rule Same for register 29 and nothing else. *)
Definition row_with_same_29 : Row.t :=
Row.SetRegisterInfo Row.Row 29 (ARL.SetSame ARL.default).

(** A row with the rule Unspecified for register 29 and nothing else. *)
Definition row_with_unspecified_29 : Row.t :=
Row.SetRegisterInfo Row.Row 29 (ARL.SetUnspecified ARL.default).

(** Rules for eight registers, with the payloads at the ends of their
ranges. *)
Definition boundary_rules : list (Z * RegisterRule.t) :=
[ (0, RegisterRule.AtCFAPlusOffset INT32_MIN);
  (1, RegisterRule.IsCFAPlusOffset INT32_MAX);
  (2, RegisterRule.AtAFAPlusOffset 0);
  (3, RegisterRule.IsConstant 0);
  (4, RegisterRule.IsConstant UINT64_MAX);
  (5, RegisterRule.InOtherRegister UINT32_MAX);
  (6, RegisterRule.IsExpression 4096 65535);
  (7, RegisterRule.Same) ].

(** The rows of the example of the specification, at offsets 0, 4 and 10:
the second saves register 29 at CFA - 16, the third has register 30
unchanged. *)
Definition row_at_0 : Row.t := Row.Row.
Definition row_at_4 : Row.t :=
Row.SetRegisterInfo (Row.SetOffset Row.Row 4) 29 (ARL.SetAtCFAPlusOffset ARL.default (-16)).
Definition row_at_10 : Row.t :=
Row.SetRegisterInfo (Row.SetOffset Row.Row 10) 30 (ARL.SetSame ARL.default).

Definition example_plan : UP.t :=
UP.appended UP.eRegisterKindDWARF [row_at_0; row_at_4; row_at_10].

(** Another row at offset 4, with no register rule. *)
Definition other_row_at_4 : Row.t := Row.SetOffset Row.Row 4.

(** A register location after three setter calls. *)
Definition three_setter_calls : list ARL.mutation :=
[ ARL.DoSetIsConstant 7; ARL.DoSetSame; ARL.DoSetAtCFAPlusOffset (-8) ].

(** A frame-address value taken from [SP + 16] to [SP + 24] and on to
[[FP]], with [FP] as register 29. *)
Definition four_calls : list FA.mutation :=
[ FA.DoSetIsRegisterPlusOffset 31 16; FA.DoIncOffset 8; FA.DoSetOffset 0;
  FA.DoSetIsRegisterDereferenced 29 ].

(** A row whose CFA is [SP + 16]. *)
Definition row_with_cfa_sp_16 : Row.t := Row.with_cfa_value Row.Row sp_plus_16.

(** A row whose CFA is found by a return-address search. *)
Definition row_with_cfa_ra_search : Row.t := Row.with_cfa_value Row.Row ra_search_8.

(** ** Register rules and frame-address values *)

Section Accessors.

Implicit Types (l : ARL.t) (v : FA.t).

Lemma ARL_tag_cases l :
  ARL.is_offset_tag (ARL.m_type l) = false →
  ARL.GetOffset l = Some 0.
Proof. destruct l as [k u]; destruct k; simpl; intros; done. Qed.

Lemma ARL_setters_consistent l off r p n c :
  ARL.consistent ARL.default ∧
  (ARL.consistent l → ARL.consistent (ARL.SetUnspecified l)) ∧
  (ARL.consistent l → ARL.consistent (ARL.SetUndefined l)) ∧
  (ARL.consistent l → ARL.consistent (ARL.SetSame l)) ∧
  ARL.consistent (ARL.SetAtCFAPlusOffset l off) ∧
  ARL.consistent (ARL.SetIsCFAPlusOffset l off) ∧
  ARL.consistent (ARL.SetAtAFAPlusOffset l off) ∧
  ARL.consistent (ARL.SetIsAFAPlusOffset l off) ∧
  ARL.consistent (ARL.SetInRegister l r) ∧
  ARL.consistent (ARL.SetAtDWARFExpression l p n) ∧
  ARL.consistent (ARL.SetIsDWARFExpression l p n) ∧
  ARL.consistent (ARL.SetIsConstant l c).
Proof. repeat split; unfold ARL.consistent; simpl; eauto. Qed.

Lemma FA_setters_consistent v off r p n c :
  FA.consistent FA.default ∧
  (FA.consistent v → FA.consistent (FA.SetUnspecified v)) ∧
  FA.consistent (FA.SetRaSearch v off) ∧
  FA.consistent (FA.SetIsRegisterPlusOffset v r off) ∧
  FA.consistent (FA.SetIsRegisterDereferenced v r) ∧
  FA.consistent (FA.SetIsDWARFExpression v p n) ∧
  FA.consistent (FA.SetIsConstant v c) ∧
  (FA.consistent v → FA.consistent (FA.SetOffset v off)).
Proof.
  repeat split; unfold FA.consistent; simpl; eauto.
  - destruct (FA.m_value v); simpl; eauto.
  - intros Hc. unfold FA.SetOffset. case_bool_decide as Hk; [|exact Hc].
    simpl. rewrite Hk in Hc |- *. destruct Hc as [Hr _].
    destruct (FA.m_value v); simpl in *; eauto.
Qed.

(** C6.  GetOffset() of a register rule returns the offset payload when the
tag is one of atCFAPlusOffset, isCFAPlusOffset, atAFAPlusOffset and
isAFAPlusOffset (the [offset] member of the union, which is the value given
to the setter of the tag), and it returns 0 for every other tag. *)
Theorem ARL_GetOffset_by_tag l :
  (ARL.is_offset_tag (ARL.m_type l) = true →
     ARL.GetOffset l = ARL.read_offset (ARL.m_location l) ∧
     (ARL.consistent l →
        ∃ off, ARL.m_location l = ARL.offset off ∧ ARL.GetOffset l = Some off)) ∧
  (ARL.is_offset_tag (ARL.m_type l) = false → ARL.GetOffset l = Some 0) ∧
  (∀ off,
     ARL.GetOffset (ARL.SetAtCFAPlusOffset l off) = Some off ∧
     ARL.GetOffset (ARL.SetIsCFAPlusOffset l off) = Some off ∧
     ARL.GetOffset (ARL.SetAtAFAPlusOffset l off) = Some off ∧
     ARL.GetOffset (ARL.SetIsAFAPlusOffset l off) = Some off).
Proof.
  split; [|split; [apply ARL_tag_cases | done]].
  destruct l as [k u]; destruct k; simpl; try discriminate; intros _;
    (split; [done|]); unfold ARL.consistent; simpl;
    intros [off Hoff]; destruct u; simplify_eq/=; eauto.
Qed.

Lemma ARL_GetOffset_by_tag_witness :
  ARL.GetOffset same_after_constant = Some 0 ∧
  ARL.GetOffset (ARL.SetIsAFAPlusOffset ARL.default (-16)) = Some (-16).
Proof.
  split.
  - destruct (ARL_GetOffset_by_tag same_after_constant) as (_ & Hout & _).
    apply Hout. reflexivity.
  - destruct (ARL_GetOffset_by_tag (ARL.SetIsAFAPlusOffset ARL.default (-16)))
      as [Hin _].
    destruct (Hin eq_refl) as [-> _]. reflexivity.
Defined.

(** C7.  IncOffset(delta) and SetOffset(value) of a frame-address value
leave the value as it is, and are defined, on every variant other than
isRegisterPlusOffset, isRaSearch included; on isRegisterPlusOffset they
change the offset and nothing else. *)
Theorem FA_offset_mutators_only_RegisterPlusOffset v delta off :
  (FA.m_type v ≠ FA.isRegisterPlusOffset →
     FA.IncOffset v delta = Some v ∧ FA.SetOffset v off = v) ∧
  (FA.m_type v = FA.isRegisterPlusOffset →
     FA.GetOffset (FA.SetOffset v off) = Some off ∧
     FA.m_type (FA.SetOffset v off) = FA.isRegisterPlusOffset ∧
     (FA.consistent v →
        FA.GetRegisterNumber (FA.SetOffset v off) = FA.GetRegisterNumber v) ∧
     (∀ o, FA.GetOffset v = Some o → INT32_MIN <= o + delta <= INT32_MAX →
        ∃ v', FA.IncOffset v delta = Some v' ∧
              FA.GetOffset v' = Some (o + delta) ∧
              FA.m_type v' = FA.isRegisterPlusOffset ∧
              FA.GetRegisterNumber v' = FA.GetRegisterNumber v)).
Proof.
  destruct v as [k u]. unfold FA.IncOffset, FA.SetOffset. simpl.
  split; intros Hk.
  - by rewrite !bool_decide_eq_false_2.
  - subst k. simpl. split; [by destruct u|]. split; [done|]. split.
    + unfold FA.consistent. simpl. intros [[r Hr] _]. by destruct u.
    + unfold FA.GetOffset at 1. simpl. intros o Ho Hrange. rewrite Ho.
      rewrite bool_decide_eq_true_2 by done.
      eexists; split; [done|]. by destruct u.
Qed.

Lemma FA_offset_mutators_only_RegisterPlusOffset_witness :
  (FA.IncOffset ra_search_8 4 = Some ra_search_8 ∧
   FA.SetOffset ra_search_8 24 = ra_search_8) ∧
  FA.GetOffset (FA.SetOffset sp_plus_16 24) = Some 24.
Proof.
  split.
  - destruct (FA_offset_mutators_only_RegisterPlusOffset ra_search_8 4 24)
      as [Hother _].
    apply Hother. discriminate.
  - destruct (FA_offset_mutators_only_RegisterPlusOffset sp_plus_16 4 24)
      as [_ Hrpo].
    apply Hrpo. reflexivity.
Defined.

End Accessors.

Section Fallbacks.

Implicit Types (l : ARL.t) (v : FA.t).

(** C9, as the code has it.  The accessors that test the tag return their
fallback on every value whose tag does not match, whatever the union holds:
GetDWARFExpr, GetDWARFExpressionBytes and GetDWARFExpressionLength give the
null pointer and length 0, GetRegisterNumber gives LLDB_INVALID_REGNUM and
GetOffset gives 0, for register rules and for frame-address values.
GetConstant tests no tag: it returns the constant member of the union as it
is stored. *)
Theorem tag_checked_accessors_fall_back l v :
  (ARL.is_expression_tag (ARL.m_type l) = false →
     ARL.GetDWARFExpr l = Some (nullptr, 0) ∧
     ARL.GetDWARFExpressionBytes l = Some nullptr ∧
     ARL.GetDWARFExpressionLength l = Some 0) ∧
  (ARL.m_type l ≠ ARL.inOtherRegister →
     ARL.GetRegisterNumber l = Some LLDB_INVALID_REGNUM) ∧
  (ARL.is_offset_tag (ARL.m_type l) = false → ARL.GetOffset l = Some 0) ∧
  (FA.m_type v ≠ FA.isDWARFExpression →
     FA.GetDWARFExpr v = Some (nullptr, 0) ∧
     FA.GetDWARFExpressionBytes v = Some nullptr ∧
     FA.GetDWARFExpressionLength v = Some 0) ∧
  (FA.is_register_tag (FA.m_type v) = false →
     FA.GetRegisterNumber v = Some LLDB_INVALID_REGNUM) ∧
  (FA.is_offset_tag (FA.m_type v) = false → FA.GetOffset v = Some 0) ∧
  ARL.GetConstant l = ARL.read_constant_value (ARL.m_location l) ∧
  FA.GetConstant v = FA.read_constant (FA.m_value v).
Proof.
  destruct l as [k u], v as [k' u'].
  unfold ARL.GetDWARFExpr, ARL.GetDWARFExpressionBytes,
    ARL.GetDWARFExpressionLength, ARL.GetRegisterNumber, ARL.GetOffset,
    FA.GetDWARFExpr, FA.GetDWARFExpressionBytes, FA.GetDWARFExpressionLength,
    FA.GetRegisterNumber, FA.GetOffset.
  simpl. repeat split;
    solve [ destruct k; simpl; intros; done
          | destruct k'; simpl; intros; done ].
Qed.

Lemma tag_checked_accessors_fall_back_witness :
  ARL.GetDWARFExpr same_after_constant = Some (nullptr, 0) ∧
  ARL.GetRegisterNumber same_after_constant = Some LLDB_INVALID_REGNUM ∧
  FA.GetDWARFExpressionLength ra_search_8 = Some 0 ∧
  FA.GetRegisterNumber ra_search_8 = Some LLDB_INVALID_REGNUM ∧
  FA.GetOffset unspecified_after_constant = Some 0.
Proof.
  destruct (tag_checked_accessors_fall_back same_after_constant ra_search_8)
    as (He & Hr & _ & He' & Hr' & _).
  destruct (tag_checked_accessors_fall_back same_after_constant
              unspecified_after_constant) as (_ & _ & _ & _ & _ & Ho' & _).
  split; [apply He; reflexivity|].
  split; [apply Hr; discriminate|].
  split; [apply He'; discriminate|].
  split; [apply Hr'; reflexivity|].
  apply Ho'; reflexivity.
Defined.

(** C9, as the claim has it, fails for GetConstant.  After SetIsConstant(7)
and SetSame() the rule is not a constant rule and GetConstant() is 7,
which is none of the fallbacks; the same holds for a frame-address value
after SetIsConstant(7) and SetUnspecified().  On a rule that holds an
offset, GetConstant() reads a member of the union that is not the active
one. *)
Lemma GetConstant_has_no_fallback :
  ARL.IsConstant same_after_constant = false ∧
  ARL.GetConstant same_after_constant = Some 7 ∧
  FA.IsConstant unspecified_after_constant = false ∧
  FA.GetConstant unspecified_after_constant = Some 7 ∧
  7 ≠ 0 ∧ 7 ≠ nullptr ∧ 7 ≠ LLDB_INVALID_REGNUM ∧
  ARL.IsConstant (ARL.SetAtCFAPlusOffset ARL.default 5) = false ∧
  ARL.GetConstant (ARL.SetAtCFAPlusOffset ARL.default 5) = None.
Proof. repeat split; done. Qed.

(** C10.  The default-constructed register rule and frame-address value are
unspecified, with offset 0, register number LLDB_INVALID_REGNUM, and the
null expression of length 0; the fresh Row has code offset 0, unspecified
CFA and AFA values, no register rule, and the flag for unspecified
registers false. *)
Theorem default_constructed_values :
  (ARL.IsUnspecified ARL.default = true ∧
   ARL.GetLocationType ARL.default = ARL.unspecified ∧
   ARL.GetOffset ARL.default = Some 0 ∧
   ARL.GetRegisterNumber ARL.default = Some LLDB_INVALID_REGNUM ∧
   ARL.GetDWARFExpr ARL.default = Some (nullptr, 0) ∧
   ARL.GetDWARFExpressionBytes ARL.default = Some nullptr ∧
   ARL.GetDWARFExpressionLength ARL.default = Some 0) ∧
  (FA.IsUnspecified FA.default = true ∧
   FA.GetValueType FA.default = FA.unspecified ∧
   FA.GetOffset FA.default = Some 0 ∧
   FA.GetRegisterNumber FA.default = Some LLDB_INVALID_REGNUM ∧
   FA.GetDWARFExpr FA.default = Some (nullptr, 0) ∧
   FA.GetDWARFExpressionBytes FA.default = Some nullptr ∧
   FA.GetDWARFExpressionLength FA.default = Some 0) ∧
  (Row.GetOffset Row.Row = 0 ∧
   FA.IsUnspecified (Row.GetCFAValue Row.Row) = true ∧
   FA.IsUnspecified (Row.GetAFAValue Row.Row) = true ∧
   Row.m_register_locations Row.Row = ∅ ∧
   (∀ reg_num out, Row.GetRegisterInfo Row.Row reg_num out = (false, out)) ∧
   Row.GetUnspecifiedRegistersAreUndefined Row.Row = false).
Proof. split_and!; reflexivity. Qed.

End Fallbacks.

(** ** Clear *)

Section Clear.

Implicit Types (p : UP.t).

(** C8, as the code has it.  Clear() leaves the plan that the constructor
makes for the DWARF register numbering, but for the return-address register,
which keeps its value: no row, no valid range, no source name, the three
flags at eLazyBoolCalculate, the register kind eRegisterKindDWARF. *)
Theorem Clear_resets_all_but_return_register p :
  UP.Clear p =
    UP.SetReturnAddressRegister (UP.UnwindPlan UP.eRegisterKindDWARF)
      (UP.GetReturnAddressRegister p) ∧
  UP.m_row_list (UP.Clear p) = [] ∧
  UP.GetRowCount (UP.Clear p) = 0 ∧
  UP.m_plan_valid_ranges (UP.Clear p) = [] ∧
  UP.m_source_name (UP.Clear p) = None ∧
  UP.GetSourcedFromCompiler (UP.Clear p) = UP.eLazyBoolCalculate ∧
  UP.GetUnwindPlanValidAtAllInstructions (UP.Clear p) = UP.eLazyBoolCalculate ∧
  UP.GetUnwindPlanForSignalTrap (UP.Clear p) = UP.eLazyBoolCalculate ∧
  UP.GetRegisterKind (UP.Clear p) = UP.eRegisterKindDWARF ∧
  UP.GetReturnAddressRegister (UP.Clear p) = UP.GetReturnAddressRegister p.
Proof. repeat split. Qed.

(** C8, as the claim has it, fails: a plan whose return-address register was
set to 30 is, after Clear(), not the plan of the constructor, whose
return-address register is LLDB_INVALID_REGNUM. *)
Lemma Clear_keeps_return_register :
  UP.GetReturnAddressRegister (UP.Clear plan_with_return_register) = 30 ∧
  UP.GetReturnAddressRegister (UP.UnwindPlan UP.eRegisterKindDWARF)
    = LLDB_INVALID_REGNUM ∧
  ¬ (∃ reg_kind, UP.Clear plan_with_return_register = UP.UnwindPlan reg_kind).
Proof.
  split; [done|]. split; [done|].
  intros [reg_kind Heq].
  apply (f_equal UP.GetReturnAddressRegister) in Heq. discriminate.
Qed.

End Clear.

(** ** Rows *)

Section Rows.

Implicit Types (row : Row.t) (c : Row.setter_call) (l : ARL.t).

Lemma GetRegisterInfo_SetRegisterInfo row reg_num l out :
  Row.GetRegisterInfo (Row.SetRegisterInfo row reg_num l) reg_num out = (true, l).
Proof. unfold Row.GetRegisterInfo. simpl. by rewrite lookup_insert_eq. Qed.

Lemma GetRegisterInfo_SetRegisterInfo_ne row reg_num r l out :
  r ≠ reg_num →
  Row.GetRegisterInfo (Row.SetRegisterInfo row reg_num l) r out
  = Row.GetRegisterInfo row r out.
Proof.
  intros Hne. unfold Row.GetRegisterInfo. simpl.
  by rewrite lookup_insert_ne.
Qed.

(** The guard of a call, read off the flags and the rule that exists. *)
Lemma call_existing c row reg_num existing :
  Row.m_register_locations row !! reg_num = Some existing →
  Row.call c row reg_num =
    if Row.replace_flag c
       && (negb (Row.only_if_unspecified c) || ARL.IsUnspecified existing)
    then (true, Row.SetRegisterInfo row reg_num (RegisterRule.make (Row.target c)))
    else (false, row).
Proof.
  intros Hex.
  destruct c as [off f|off f|f g|f|o f|f|p n f|k f]; simpl;
    unfold Row.SetRegisterLocationToAtCFAPlusOffset,
      Row.SetRegisterLocationToIsCFAPlusOffset,
      Row.SetRegisterLocationToUndefined,
      Row.SetRegisterLocationToUnspecified,
      Row.SetRegisterLocationToRegister, Row.SetRegisterLocationToSame,
      Row.SetRegisterLocationToIsDWARFExpression,
      Row.SetRegisterLocationToIsConstant;
    rewrite Hex; by destruct f.
Qed.

Lemma call_absent c row reg_num :
  Row.m_register_locations row !! reg_num = None →
  Row.call c row reg_num =
    (true, Row.SetRegisterInfo row reg_num (RegisterRule.make (Row.target c))).
Proof.
  intros Hex.
  destruct c; simpl;
    unfold Row.SetRegisterLocationToAtCFAPlusOffset,
      Row.SetRegisterLocationToIsCFAPlusOffset,
      Row.SetRegisterLocationToUndefined,
      Row.SetRegisterLocationToUnspecified,
      Row.SetRegisterLocationToRegister, Row.SetRegisterLocationToSame,
      Row.SetRegisterLocationToIsDWARFExpression,
      Row.SetRegisterLocationToIsConstant;
    by rewrite Hex.
Qed.

(** C4.  On a row with no rule for register r,
SetRegisterLocationToSame(r, false) returns true and the rule of r is Same;
a setter of another target type called for r afterwards with its replace
flag false returns false and the row, with Same for r, is as before. *)
Theorem Same_survives_guarded_setter row r c :
  Row.m_register_locations row !! r = None →
  Row.target c ≠ RegisterRule.Same →
  Row.replace_flag c = false →
  ∃ row1,
    Row.SetRegisterLocationToSame row r false = (true, row1) ∧
    (∀ out, Row.GetRegisterInfo row1 r out = (true, ARL.SetSame ARL.default)) ∧
    RegisterRule.observe (ARL.SetSame ARL.default) = Some RegisterRule.Same ∧
    Row.call c row1 r = (false, row1) ∧
    (∀ out, Row.GetRegisterInfo (Row.call c row1 r).2 r out
            = (true, ARL.SetSame ARL.default)).
Proof.
  intros Habsent _ Hflag.
  exists (Row.SetRegisterInfo row r (ARL.SetSame ARL.default)).
  assert (Hcall :
    Row.call c (Row.SetRegisterInfo row r (ARL.SetSame ARL.default)) r
    = (false, Row.SetRegisterInfo row r (ARL.SetSame ARL.default))).
  { rewrite (call_existing _ _ _ (ARL.SetSame ARL.default)), Hflag; [done|].
    simpl. by rewrite lookup_insert_eq. }
  split_and!.
  - apply (call_absent (Row.ToSame false) _ _ Habsent).
  - intros out. apply GetRegisterInfo_SetRegisterInfo.
  - reflexivity.
  - exact Hcall.
  - intros out. rewrite Hcall. apply GetRegisterInfo_SetRegisterInfo.
Qed.

Lemma Same_survives_guarded_setter_witness :
  ∃ row1,
    Row.SetRegisterLocationToSame Row.Row 29 false = (true, row1) ∧
    (∀ out, Row.GetRegisterInfo row1 29 out = (true, ARL.SetSame ARL.default)) ∧
    RegisterRule.observe (ARL.SetSame ARL.default) = Some RegisterRule.Same ∧
    Row.call (Row.ToAtCFAPlusOffset (-8) false) row1 29 = (false, row1) ∧
    (∀ out,
       Row.GetRegisterInfo (Row.call (Row.ToAtCFAPlusOffset (-8) false) row1 29).2
         29 out
       = (true, ARL.SetSame ARL.default)).
Proof.
  apply (Same_survives_guarded_setter Row.Row 29 (Row.ToAtCFAPlusOffset (-8) false)).
  - reflexivity.
  - discriminate.
  - reflexivity.
Defined.

End Rows.

(** ** Setting rules and reading them back *)

Section RoundTrip.

Implicit Types (row : Row.t) (rules : list (Z * RegisterRule.t)).

Lemma set_rules_cons row r rule rules :
  Row.set_rules row ((r, rule) :: rules)
  = Row.set_rules (Row.SetRegisterInfo row r (RegisterRule.make rule)) rules.
Proof. reflexivity. Qed.

(** A register that the list does not name keeps what it had. *)
Lemma set_rules_lookup_other rules : ∀ row r,
  r ∉ rules.*1 →
  Row.m_register_locations (Row.set_rules row rules) !! r
  = Row.m_register_locations row !! r.
Proof.
  induction rules as [|[r0 rule0] rules IH]; intros row r Hnotin; [done|].
  rewrite fmap_cons in Hnotin. apply not_elem_of_cons in Hnotin as [Hne Hnotin].
  rewrite set_rules_cons, IH by exact Hnotin.
  simpl. by apply lookup_insert_ne.
Qed.

Lemma set_rules_lookup rules : ∀ row r rule,
  NoDup rules.*1 → (r, rule) ∈ rules →
  Row.m_register_locations (Row.set_rules row rules) !! r
  = Some (RegisterRule.make rule).
Proof.
  induction rules as [|[r0 rule0] rules IH]; intros row r rule Hnd Hin.
  - by apply elem_of_nil in Hin.
  - rewrite fmap_cons in Hnd. apply NoDup_cons in Hnd as [Hfresh Hnd].
    rewrite set_rules_cons.
    apply elem_of_cons in Hin as [Heq | Hin].
    + injection Heq as -> ->. rewrite set_rules_lookup_other by done.
      simpl. apply lookup_insert_eq.
    + by apply IH.
Qed.

(** The accessors give back the tag and the payload of the setter. *)
Lemma observe_make rule :
  RegisterRule.fits rule →
  RegisterRule.observe (RegisterRule.make rule) = Some rule.
Proof.
  destruct rule; simpl; intros Hfits; try reflexivity;
    unfold RegisterRule.observe; simpl; unfold to_uint16;
    rewrite Z.mod_small by exact Hfits; reflexivity.
Qed.

(** What the accessors give back of a rule, for every rule. *)
Lemma observe_make_stored rule :
  RegisterRule.observe (RegisterRule.make rule) = Some (RegisterRule.stored rule).
Proof. by destruct rule. Qed.

Lemma stored_fits rule :
  RegisterRule.stored rule = rule ↔ RegisterRule.fits rule.
Proof.
  destruct rule; unfold RegisterRule.stored, RegisterRule.fits; try done.
  all: unfold is_uint16, to_uint16; split;
    [ intros [= Hlen]; rewrite <- Hlen; by apply Z.mod_pos_bound
    | intros Hlen; by rewrite Z.mod_small ].
Qed.

(** C5, as the code has it.  After SetRegisterInfo for N registers, all
different, each with the location that the setter of its rule makes,
GetRegisterInfo of each of the registers returns true with exactly that
location, from whichever row one starts, and the accessors of the location
give the tag of the rule with its payload as stored: any offset, register
number or constant as it was set, and the length of an expression reduced
modulo 2^16, which is the length that was set exactly when that is below
65536. *)
Theorem set_rules_round_trip row rules r rule out :
  NoDup rules.*1 →
  (r, rule) ∈ rules →
  Row.GetRegisterInfo (Row.set_rules row rules) r out
    = (true, RegisterRule.make rule) ∧
  RegisterRule.observe (Row.GetRegisterInfo (Row.set_rules row rules) r out).2
    = Some (RegisterRule.stored rule) ∧
  (RegisterRule.stored rule = rule ↔ RegisterRule.fits rule).
Proof.
  intros Hnd Hin.
  assert (Hget : Row.GetRegisterInfo (Row.set_rules row rules) r out
                 = (true, RegisterRule.make rule)).
  { unfold Row.GetRegisterInfo. by rewrite (set_rules_lookup _ _ _ _ Hnd Hin). }
  split; [exact Hget|]. split; [|apply stored_fits].
  rewrite Hget. apply observe_make_stored.
Qed.

Lemma set_rules_round_trip_witness :
  RegisterRule.observe
    (Row.GetRegisterInfo (Row.set_rules row_with_same_29 boundary_rules) 0
       ARL.default).2
    = Some (RegisterRule.stored (RegisterRule.AtCFAPlusOffset INT32_MIN)) ∧
  RegisterRule.observe
    (Row.GetRegisterInfo (Row.set_rules row_with_same_29 boundary_rules) 4
       ARL.default).2
    = Some (RegisterRule.stored (RegisterRule.IsConstant UINT64_MAX)) ∧
  RegisterRule.observe
    (Row.GetRegisterInfo (Row.set_rules row_with_same_29 boundary_rules) 6
       ARL.default).2
    = Some (RegisterRule.stored (RegisterRule.IsExpression 4096 65535)).
Proof.
  assert (Hnd : NoDup boundary_rules.*1)
    by (apply (bool_decide_unpack _); vm_compute; exact I).
  split_and!.
  - apply (set_rules_round_trip row_with_same_29 boundary_rules 0
             (RegisterRule.AtCFAPlusOffset INT32_MIN) ARL.default Hnd).
    repeat constructor.
  - apply (set_rules_round_trip row_with_same_29 boundary_rules 4
             (RegisterRule.IsConstant UINT64_MAX) ARL.default Hnd).
    repeat constructor.
  - apply (set_rules_round_trip row_with_same_29 boundary_rules 6
             (RegisterRule.IsExpression 4096 65535) ARL.default Hnd).
    repeat constructor.
Defined.

(** C5, as the claim has it, fails for an expression of 65536 bytes, a
length that the uint32_t parameter of the setter takes: the rule set for
register 6 is read back with length 0. *)
Lemma long_expression_not_read_back :
  0 <= 65536 <= UINT32_MAX ∧
  Row.GetRegisterInfo
    (Row.set_rules Row.Row [(6, RegisterRule.IsExpression 4096 65536)]) 6
    ARL.default
  = (true, RegisterRule.make (RegisterRule.IsExpression 4096 65536)) ∧
  RegisterRule.observe
    (Row.GetRegisterInfo
       (Row.set_rules Row.Row [(6, RegisterRule.IsExpression 4096 65536)]) 6
       ARL.default).2
  = Some (RegisterRule.IsExpression 4096 0) ∧
  RegisterRule.IsExpression 4096 0 ≠ RegisterRule.IsExpression 4096 65536.
Proof. split_and!; done. Qed.

(** An expression of 65536 bytes is read back with length 0: the uint16_t
member does not hold the length. *)
Example expression_length_narrowed :
  RegisterRule.observe (RegisterRule.make (RegisterRule.IsExpression 4096 65536))
  = Some (RegisterRule.IsExpression 4096 0).
Proof. reflexivity. Qed.

End RoundTrip.

(** ** The row list of a plan *)

Section SortedLists.

(** Facts on lists sorted by a relation, for [row_le] and [row_lt]. *)
Context {A : Type} (R : relation A).

Lemma StronglySorted_lookup_lt (l : list A) : ∀ i j a b,
  StronglySorted R l → l !! i = Some a → l !! j = Some b → (i < j)%nat → R a b.
Proof.
  induction l as [|x l IH]; intros i j a b Hsorted Hi Hj Hlt; [done|].
  apply StronglySorted_cons in Hsorted as [Hall Hsorted].
  destruct j as [|j]; [lia|]. simpl in Hj.
  destruct i as [|i]; simpl in Hi.
  - injection Hi as ->. rewrite Forall_forall in Hall.
    apply Hall. by eapply list_elem_of_lookup_2.
  - eapply (IH i j); eauto. lia.
Qed.

End SortedLists.

Section RowList.

Implicit Types (p : UP.t) (row r : Row.t) (rows : list Row.t) (o : Z).

Lemma row_le_lookup rows i j a b :
  StronglySorted UP.row_le rows →
  rows !! i = Some a → rows !! j = Some b → (i ≤ j)%nat →
  Row.GetOffset a <= Row.GetOffset b.
Proof.
  intros Hsorted Hi Hj Hle.
  destruct (decide (i = j)) as [->|Hne].
  - rewrite Hi in Hj. injection Hj as ->. lia.
  - apply (StronglySorted_lookup_lt UP.row_le rows i j); auto. lia.
Qed.

Lemma row_lt_lookup_inj rows i j a b :
  StronglySorted UP.row_lt rows →
  rows !! i = Some a → rows !! j = Some b →
  Row.GetOffset a = Row.GetOffset b → i = j.
Proof.
  intros Hsorted Hi Hj Heq.
  destruct (Nat.lt_trichotomy i j) as [Hlt | [-> | Hlt]]; [|done|].
  - pose proof (StronglySorted_lookup_lt UP.row_lt rows i j a b
                  Hsorted Hi Hj Hlt) as H.
    unfold UP.row_lt in H. lia.
  - pose proof (StronglySorted_lookup_lt UP.row_lt rows j i b a
                  Hsorted Hj Hi Hlt) as H.
    unfold UP.row_lt in H. lia.
Qed.

Lemma strictly_sorted_sorted rows :
  StronglySorted UP.row_lt rows → StronglySorted UP.row_le rows.
Proof.
  induction 1 as [|x l Hs IH Hall]; constructor; [done|].
  eapply Forall_impl; [exact Hall|]. unfold UP.row_lt, UP.row_le. intros; lia.
Qed.

(** *** AppendRow *)

Lemma AppendRow_row_list p rows :
  UP.m_row_list (foldl UP.AppendRow p rows) = UP.m_row_list p ++ rows.
Proof.
  revert p. induction rows as [|r rows IH]; intros p; simpl.
  - by rewrite app_nil_r.
  - rewrite IH. simpl. by rewrite <- app_assoc.
Qed.

Lemma appended_row_list reg_kind rows :
  UP.m_row_list (UP.appended reg_kind rows) = rows.
Proof. unfold UP.appended. by rewrite AppendRow_row_list. Qed.

(** *** The search *)

(** The walk returns [best] when every row is beyond the offset, and
otherwise the index of the last row that is not. *)
Lemma search_rows_spec rows : ∀ o i best,
  StronglySorted UP.row_le rows →
  (UP.search_rows rows o i best = best ∧
   ∀ k r, rows !! k = Some r → o < Row.GetOffset r)
  ∨ (∃ k r,
       UP.search_rows rows o i best = Some (i + k)%nat ∧
       rows !! k = Some r ∧ Row.GetOffset r <= o ∧
       ∀ k' r', rows !! k' = Some r' → Row.GetOffset r' <= o → (k' ≤ k)%nat).
Proof.
  induction rows as [|x rows IH]; intros o i best Hsorted; simpl.
  - left. split; [done|]. intros k r Hk. by rewrite lookup_nil in Hk.
  - apply StronglySorted_cons in Hsorted as [Hall Hsorted].
    case_bool_decide as Hx.
    + right. destruct (IH o (S i) (Some i) Hsorted)
        as [[Hres Hbeyond] | (k & r & Hres & Hk & Hr & Hmax)].
      * exists 0%nat, x. rewrite Hres, Nat.add_0_r. split_and!; try done.
        intros [|k'] r' Hk' Hr'; [lia|]. simpl in Hk'.
        specialize (Hbeyond _ _ Hk'). lia.
      * exists (S k), r. rewrite Hres. split_and!; try done.
        { f_equal. lia. }
        intros [|k'] r' Hk' Hr'; [lia|]. simpl in Hk'.
        specialize (Hmax _ _ Hk' Hr'). lia.
    + left. split; [done|]. intros [|k] r Hk; simpl in Hk.
      * injection Hk as <-. lia.
      * rewrite Forall_forall in Hall.
        assert (UP.row_le x r) as Hle
          by (apply Hall; by eapply list_elem_of_lookup_2).
        unfold UP.row_le in Hle. lia.
Qed.

(** C1.  On a plan whose rows were added by AppendRow with non-decreasing
code offsets, GetRowForFunctionOffset(o) returns a row whenever some row has
its code offset at or before o, and the row it returns is the last of those
rows, of the greatest code offset not above o; with no offset it returns
the last row, as GetLastRow() does, when the plan has rows; and it returns
the null pointer when the plan has no row. *)
Theorem GetRowForFunctionOffset_appended reg_kind rows p :
  StronglySorted UP.row_le rows →
  p = UP.appended reg_kind rows →
  UP.m_row_list p = rows ∧
  (∀ o i,
     UP.GetRowForFunctionOffset p (Some o) = Some i →
     ∃ r, UP.m_row_list p !! i = Some r ∧ Row.GetOffset r <= o ∧
          ∀ j r', UP.m_row_list p !! j = Some r' → Row.GetOffset r' <= o →
                  (j ≤ i)%nat ∧ Row.GetOffset r' <= Row.GetOffset r) ∧
  (∀ o j r',
     UP.m_row_list p !! j = Some r' → Row.GetOffset r' <= o →
     is_Some (UP.GetRowForFunctionOffset p (Some o))) ∧
  (rows ≠ [] →
     UP.GetRowForFunctionOffset p None = UP.GetLastRow p ∧
     is_Some (UP.GetLastRow p) ∧
     UP.row_at p (UP.GetRowForFunctionOffset p None) = last rows) ∧
  (rows = [] → ∀ offset, UP.GetRowForFunctionOffset p offset = None).
Proof.
  intros Hsorted ->.
  pose proof (appended_row_list reg_kind rows) as Hrows.
  split; [exact Hrows|]. unfold UP.GetRowForFunctionOffset, UP.GetLastRow.
  rewrite Hrows. split_and!.
  - intros o i Hres.
    destruct (search_rows_spec rows o 0 None Hsorted)
      as [[Hnone _] | (k & r & Hsome & Hk & Hr & Hmax)]; [congruence|].
    rewrite Hsome in Hres. injection Hres as <-. simpl.
    exists r. split_and!; try done.
    intros j r' Hj Hr'. specialize (Hmax _ _ Hj Hr'). split; [done|].
    by apply (row_le_lookup rows j k).
  - intros o j r' Hj Hr'.
    destruct (search_rows_spec rows o 0 None Hsorted)
      as [[_ Hbeyond] | (k & r & Hsome & _)].
    + specialize (Hbeyond _ _ Hj). lia.
    + rewrite Hsome. eauto.
  - intros Hne. destruct rows as [|x rows']; [done|].
    split_and!; [done|eauto|].
    unfold UP.row_at. simpl. rewrite Hrows, last_lookup. simpl.
    by rewrite Nat.sub_0_r.
  - intros -> [o|]; reflexivity.
Qed.

Lemma GetRowForFunctionOffset_appended_witness :
  is_Some (UP.GetRowForFunctionOffset example_plan (Some 7)) ∧
  UP.GetRowForFunctionOffset example_plan None = UP.GetLastRow example_plan ∧
  UP.row_at example_plan (UP.GetRowForFunctionOffset example_plan None)
    = Some row_at_10.
Proof.
  assert (Hsorted : StronglySorted UP.row_le [row_at_0; row_at_4; row_at_10])
    by (apply (bool_decide_unpack _); vm_compute; exact I).
  destruct (GetRowForFunctionOffset_appended UP.eRegisterKindDWARF
              [row_at_0; row_at_4; row_at_10] example_plan Hsorted eq_refl)
    as (_ & _ & Hsome & Hlast & _).
  split; [apply (Hsome 7 1%nat row_at_4); [reflexivity | vm_compute; discriminate]|].
  destruct (Hlast ltac:(discriminate)) as (Heq & _ & Hrow).
  split; [exact Heq | exact Hrow].
Defined.

(** The example of the specification: rows at offsets 0, 4 and 10. *)
Example GetRowForFunctionOffset_example :
  UP.GetRowForFunctionOffset example_plan (Some 7) = Some 1%nat ∧
  UP.GetRowForFunctionOffset example_plan (Some 0) = Some 0%nat ∧
  UP.GetRowForFunctionOffset example_plan (Some 4) = Some 1%nat ∧
  UP.GetRowForFunctionOffset example_plan (Some 1000) = Some 2%nat ∧
  UP.GetRowForFunctionOffset example_plan (Some (-1)) = None ∧
  UP.GetRowForFunctionOffset example_plan None = Some 2%nat.
Proof. split_and!; reflexivity. Qed.

End RowList.

(** ** InsertRow *)

Section InsertRow.

Implicit Types (p : UP.t) (row r : Row.t) (rows : list Row.t).

Lemma insert_row_elem_of row b rows x :
  x ∈ UP.insert_row row b rows → x = row ∨ x ∈ rows.
Proof.
  induction rows as [|r rows IH]; simpl.
  - rewrite list_elem_of_singleton. auto.
  - case_bool_decide; [|case_bool_decide; [|destruct b]];
      rewrite !elem_of_cons; tauto.
Qed.

(** The walk keeps the order, for an order that extends [<] on the code
offsets and looks at the code offsets only. *)
Section Order.

Context (R : relation Row.t).
Hypothesis R_lt : ∀ a b, Row.GetOffset a < Row.GetOffset b → R a b.
Hypothesis R_trans : ∀ a b c, R a b → R b c → R a c.
Hypothesis R_offset : ∀ a a' b,
  Row.GetOffset a = Row.GetOffset a' → R a b → R a' b.

Lemma insert_row_StronglySorted row b rows :
  StronglySorted R rows → StronglySorted R (UP.insert_row row b rows).
Proof.
  induction 1 as [|r rows Hsorted IH Hall]; simpl.
  - repeat constructor.
  - case_bool_decide as Hlt; [|case_bool_decide as Hgt].
    + constructor; [exact IH|]. rewrite Forall_forall in Hall |- *.
      intros x [-> | Hx]%insert_row_elem_of; auto.
    + constructor; [by constructor|]. constructor; [auto|].
      eapply Forall_impl; [exact Hall|]. intros x Hx. eauto.
    + assert (Heq : Row.GetOffset r = Row.GetOffset row) by lia.
      destruct b; constructor; try done.
      eapply Forall_impl; [exact Hall|]. intros x Hx. eauto.
Qed.

End Order.

Lemma insert_row_sorted row b rows :
  StronglySorted UP.row_le rows →
  StronglySorted UP.row_le (UP.insert_row row b rows).
Proof.
  apply insert_row_StronglySorted; unfold UP.row_le; intros; lia.
Qed.

Lemma insert_row_strictly_sorted row b rows :
  StronglySorted UP.row_lt rows →
  StronglySorted UP.row_lt (UP.insert_row row b rows).
Proof.
  apply insert_row_StronglySorted; unfold UP.row_lt; intros; lia.
Qed.

Lemma inserted_strictly_sorted reg_kind calls :
  UP.strictly_sorted (UP.inserted reg_kind calls).
Proof.
  unfold UP.inserted.
  assert (Hnew : UP.strictly_sorted (UP.UnwindPlan reg_kind)) by constructor.
  revert Hnew. generalize (UP.UnwindPlan reg_kind).
  induction calls as [|[row b] calls IH]; intros p Hp; simpl; [done|].
  apply IH. by apply insert_row_strictly_sorted.
Qed.

(** A row at the offset of the new row: without [replace_existing] the rows
stay as they are. *)
Lemma insert_row_existing_keep row rows r0 :
  StronglySorted UP.row_le rows →
  r0 ∈ rows → Row.GetOffset r0 = Row.GetOffset row →
  UP.insert_row row false rows = rows.
Proof.
  induction 1 as [|r rows Hsorted IH Hall]; intros Hin Heq; simpl.
  - by apply elem_of_nil in Hin.
  - rewrite Forall_forall in Hall. unfold UP.row_le in Hall.
    apply elem_of_cons in Hin as [-> | Hin].
    + rewrite !bool_decide_eq_false_2 by lia. done.
    + specialize (Hall _ Hin).
      case_bool_decide as Hlt; [by rewrite IH|].
      rewrite bool_decide_eq_false_2 by lia. done.
Qed.

(** With [replace_existing] the new row takes the place of the first row at
its offset. *)
Lemma insert_row_existing_replace row rows : ∀ i r0,
  StronglySorted UP.row_le rows →
  rows !! i = Some r0 → Row.GetOffset r0 = Row.GetOffset row →
  ∃ k r1, (k ≤ i)%nat ∧ rows !! k = Some r1 ∧
          Row.GetOffset r1 = Row.GetOffset row ∧
          UP.insert_row row true rows = <[k := row]> rows.
Proof.
  induction rows as [|r rows IH]; intros i r0 Hsorted Hi Heq; [done|].
  apply StronglySorted_cons in Hsorted as [Hall Hsorted].
  rewrite Forall_forall in Hall. unfold UP.row_le in Hall. simpl.
  case_bool_decide as Hlt.
  - destruct i as [|i]; simpl in Hi; [injection Hi as ->; lia|].
    destruct (IH i r0 Hsorted Hi Heq) as (k & r1 & Hk & Hr1 & Hoff & Hins).
    exists (S k), r1. split_and!; try done; [lia|]. simpl. by rewrite Hins.
  - exists 0%nat, r.
    assert (Row.GetOffset r <= Row.GetOffset r0) as Hle.
    { destruct i as [|i]; simpl in Hi; [injection Hi as ->; lia|].
      apply Hall. by eapply list_elem_of_lookup_2. }
    rewrite bool_decide_eq_false_2 by lia.
    split_and!; try done; lia.
Qed.

(** No row at the offset of the new row: the new row goes between two
parts of the list. *)
Lemma insert_row_new row b rows :
  (∀ r, r ∈ rows → Row.GetOffset r ≠ Row.GetOffset row) →
  ∃ l1 l2, rows = l1 ++ l2 ∧ UP.insert_row row b rows = l1 ++ row :: l2.
Proof.
  induction rows as [|r rows IH]; intros Hnew; simpl.
  - by exists [], [].
  - assert (Hr : Row.GetOffset r ≠ Row.GetOffset row)
      by (apply Hnew; left).
    case_bool_decide as Hlt.
    + destruct IH as (l1 & l2 & -> & ->).
      { intros x Hx. apply Hnew. by right. }
      by exists (r :: l1), l2.
    + rewrite bool_decide_eq_true_2 by lia. by exists [], (r :: rows).
Qed.

Lemma with_row_list_id p : UP.with_row_list p (UP.m_row_list p) = p.
Proof. by destruct p. Qed.

(** C2.  InsertRow keeps the rows of a plan in the order of their code
offsets, non-decreasing or increasing, so that the rows are in increasing
order after any sequence of InsertRow calls on a new plan.  When a row of
the plan is at the code offset of the new row, InsertRow without
replace_existing leaves the plan as it is, and InsertRow with
replace_existing puts the new row in the place of the row at that offset
(the first of them, should the plan hold several) and changes nothing
else.  When no row is at that offset, the new row is put in between the
others. *)
Theorem InsertRow_sorted_and_existing p row replace_existing reg_kind calls :
  (UP.sorted p → UP.sorted (UP.InsertRow p row replace_existing)) ∧
  (UP.strictly_sorted p →
     UP.strictly_sorted (UP.InsertRow p row replace_existing)) ∧
  UP.strictly_sorted (UP.inserted reg_kind calls) ∧
  (∀ i r0,
     UP.sorted p →
     UP.m_row_list p !! i = Some r0 →
     Row.GetOffset r0 = Row.GetOffset row →
     UP.InsertRow p row false = p ∧
     ∃ k r1, (k ≤ i)%nat ∧ UP.m_row_list p !! k = Some r1 ∧
             Row.GetOffset r1 = Row.GetOffset row ∧
             UP.InsertRow p row true
               = UP.with_row_list p (<[k := row]> (UP.m_row_list p)) ∧
             (UP.strictly_sorted p → k = i)) ∧
  ((∀ r, r ∈ UP.m_row_list p → Row.GetOffset r ≠ Row.GetOffset row) →
     ∃ l1 l2, UP.m_row_list p = l1 ++ l2 ∧
              UP.InsertRow p row replace_existing
                = UP.with_row_list p (l1 ++ row :: l2)).
Proof.
  unfold UP.sorted, UP.strictly_sorted, UP.InsertRow. split_and!.
  - apply insert_row_sorted.
  - apply insert_row_strictly_sorted.
  - apply inserted_strictly_sorted.
  - intros i r0 Hsorted Hi Heq. split.
    + rewrite (insert_row_existing_keep row _ r0); auto using with_row_list_id.
      by eapply list_elem_of_lookup_2.
    + destruct (insert_row_existing_replace row _ i r0 Hsorted Hi Heq)
        as (k & r1 & Hk & Hr1 & Hoff & Hins).
      exists k, r1. rewrite Hins. split_and!; try done.
      intros Hstrict. apply (row_lt_lookup_inj _ k i r1 r0 Hstrict Hr1 Hi).
      lia.
  - intros Hnew.
    destruct (insert_row_new row replace_existing _ Hnew) as (l1 & l2 & H1 & H2).
    exists l1, l2. by rewrite H2.
Qed.

Lemma InsertRow_sorted_and_existing_witness :
  UP.sorted (UP.InsertRow example_plan other_row_at_4 true) ∧
  UP.InsertRow example_plan other_row_at_4 false = example_plan ∧
  (∃ k r1, (k ≤ 1)%nat ∧ UP.m_row_list example_plan !! k = Some r1 ∧
           Row.GetOffset r1 = Row.GetOffset other_row_at_4 ∧
           UP.InsertRow example_plan other_row_at_4 true
             = UP.with_row_list example_plan
                 (<[k := other_row_at_4]> (UP.m_row_list example_plan)) ∧
           (UP.strictly_sorted example_plan → k = 1%nat)).
Proof.
  assert (Hsorted : UP.sorted example_plan)
    by (apply (bool_decide_unpack _); vm_compute; exact I).
  destruct (InsertRow_sorted_and_existing example_plan other_row_at_4 true
              UP.eRegisterKindDWARF []) as (Hkeep & _ & _ & Hexisting & _).
  split; [exact (Hkeep Hsorted)|].
  apply (Hexisting 1%nat row_at_4 Hsorted); reflexivity.
Defined.

(** Rows inserted out of order, two of them at offset 4: without
replace_existing the first row at offset 4 stays, with it the later row
takes its place. *)
Example InsertRow_example :
  UP.m_row_list
    (UP.inserted UP.eRegisterKindDWARF
       [(row_at_10, false); (row_at_4, false); (row_at_0, false);
        (other_row_at_4, false)])
  = [row_at_0; row_at_4; row_at_10] ∧
  UP.m_row_list
    (UP.inserted UP.eRegisterKindDWARF
       [(row_at_10, false); (row_at_4, false); (row_at_0, false);
        (other_row_at_4, true)])
  = [row_at_0; other_row_at_4; row_at_10].
Proof. split; reflexivity. Qed.

End InsertRow.

(** ** The tag and the union *)

Section TagAndUnion.

Implicit Types (l : ARL.t) (v : FA.t).

Lemma ARL_mutate_consistent m l :
  ARL.consistent l → ARL.consistent (ARL.mutate m l).
Proof. destruct m; unfold ARL.consistent; simpl; eauto. Qed.

Lemma ARL_consistent_defined l :
  ARL.consistent l →
  is_Some (ARL.GetOffset l) ∧ is_Some (ARL.GetRegisterNumber l) ∧
  is_Some (ARL.GetDWARFExpr l) ∧ is_Some (ARL.GetDWARFExpressionBytes l) ∧
  is_Some (ARL.GetDWARFExpressionLength l).
Proof.
  destruct l as [k u].
  unfold ARL.consistent, ARL.GetOffset, ARL.GetRegisterNumber, ARL.GetDWARFExpr,
    ARL.GetDWARFExpressionBytes, ARL.GetDWARFExpressionLength.
  destruct k; simpl; intros Hc; split_and!; eauto;
    destruct Hc as [x Hx]; rewrite Hx; simpl; eauto.
Qed.

(** X1.  A register location whose tag agrees with the member of the union
written last keeps that agreement under every sequence of the setters of the
header, so that GetOffset, GetRegisterNumber and the three expression
accessors never read a member of the union other than the active one. *)
Theorem ARL_setters_keep_tag_and_union ms : ∀ l,
  ARL.consistent l →
  ARL.consistent (ARL.mutate_all ms l) ∧
  is_Some (ARL.GetOffset (ARL.mutate_all ms l)) ∧
  is_Some (ARL.GetRegisterNumber (ARL.mutate_all ms l)) ∧
  is_Some (ARL.GetDWARFExpr (ARL.mutate_all ms l)) ∧
  is_Some (ARL.GetDWARFExpressionBytes (ARL.mutate_all ms l)) ∧
  is_Some (ARL.GetDWARFExpressionLength (ARL.mutate_all ms l)).
Proof.
  induction ms as [|m ms IH]; intros l Hc; simpl.
  - split; [exact Hc|]. by apply ARL_consistent_defined.
  - apply IH. by apply ARL_mutate_consistent.
Qed.

Lemma ARL_setters_keep_tag_and_union_witness :
  ARL.consistent (ARL.mutate_all three_setter_calls ARL.default) ∧
  is_Some (ARL.GetOffset (ARL.mutate_all three_setter_calls ARL.default)) ∧
  is_Some (ARL.GetRegisterNumber (ARL.mutate_all three_setter_calls ARL.default)) ∧
  is_Some (ARL.GetDWARFExpr (ARL.mutate_all three_setter_calls ARL.default)) ∧
  is_Some (ARL.GetDWARFExpressionBytes
             (ARL.mutate_all three_setter_calls ARL.default)) ∧
  is_Some (ARL.GetDWARFExpressionLength
             (ARL.mutate_all three_setter_calls ARL.default)).
Proof.
  apply (ARL_setters_keep_tag_and_union three_setter_calls ARL.default).
  exact I.
Defined.

Lemma FA_IncOffset_consistent v delta v' :
  FA.consistent v → FA.IncOffset v delta = Some v' → FA.consistent v'.
Proof.
  destruct v as [k u]. unfold FA.IncOffset, FA.consistent. simpl.
  case_bool_decide as Hk; [|by intros ? [= <-]].
  subst k. intros [[r Hr] _].
  destruct u as [r0 [o|]| | |]; simpl in *; try done.
  case_bool_decide; [|done]. intros [= <-]. simpl. eauto.
Qed.

Lemma FA_mutate_consistent m v v' :
  FA.consistent v → FA.mutate m v = Some v' → FA.consistent v'.
Proof.
  intros Hc.
  destruct (FA_setters_consistent v 0 0 0 0 0) as (_ & Hu & _).
  destruct m as [|off|r off|r|p n|c|delta|off]; simpl;
    try (intros [= <-]);
    try (by eapply FA_IncOffset_consistent);
    try (by apply Hu).
  - apply (FA_setters_consistent v off 0 0 0 0).
  - apply (FA_setters_consistent v off r 0 0 0).
  - apply (FA_setters_consistent v 0 r 0 0 0).
  - apply (FA_setters_consistent v 0 0 p n 0).
  - apply (FA_setters_consistent v 0 0 0 0 c).
  - by apply (FA_setters_consistent v off 0 0 0 0).
Qed.

Lemma FA_consistent_defined v :
  FA.consistent v →
  is_Some (FA.GetOffset v) ∧ is_Some (FA.GetRegisterNumber v) ∧
  is_Some (FA.GetDWARFExpr v) ∧ is_Some (FA.GetDWARFExpressionBytes v) ∧
  is_Some (FA.GetDWARFExpressionLength v).
Proof.
  destruct v as [k u].
  unfold FA.consistent, FA.GetOffset, FA.GetRegisterNumber, FA.GetDWARFExpr,
    FA.GetDWARFExpressionBytes, FA.GetDWARFExpressionLength.
  destruct k, u as [[r|] [o|]| | |]; simpl; intros Hc; split_and!; eauto;
    exfalso; (destruct Hc as [[? ?] [? ?]] || destruct Hc as [? ?]); done.
Qed.

(** X2.  A frame-address value whose tag agrees with the member of the union
written last keeps that agreement under every sequence of setters,
SetOffset and IncOffset calls that is defined, so that GetOffset,
GetRegisterNumber and the three expression accessors never read a member
other than the active one; and on such a value IncOffset is undefined only
when the value is register plus offset and the sum leaves the range of
int32_t. *)
Theorem FA_calls_keep_tag_and_union ms : ∀ v v' delta,
  FA.consistent v →
  (FA.mutate_all ms v = Some v' →
     FA.consistent v' ∧
     is_Some (FA.GetOffset v') ∧ is_Some (FA.GetRegisterNumber v') ∧
     is_Some (FA.GetDWARFExpr v') ∧ is_Some (FA.GetDWARFExpressionBytes v') ∧
     is_Some (FA.GetDWARFExpressionLength v')) ∧
  (FA.IncOffset v delta = None →
     ∃ o, FA.GetValueType v = FA.isRegisterPlusOffset ∧
          FA.GetOffset v = Some o ∧
          ¬ (INT32_MIN <= o + delta <= INT32_MAX)).
Proof.
  intros v v' delta Hc. split.
  - revert v Hc. induction ms as [|m ms IH]; intros v Hc; simpl.
    + intros [= <-]. split; [exact Hc|]. by apply FA_consistent_defined.
    + destruct (FA.mutate m v) as [v1|] eqn:Hm; simpl; [|done].
      apply IH. by eapply FA_mutate_consistent.
  - destruct v as [k u]. intros Hnone.
    destruct (decide (k = FA.isRegisterPlusOffset)) as [->|Hk].
    + destruct Hc as [_ [o Ho]]. simpl in Ho.
      unfold FA.IncOffset in Hnone. simpl in Hnone. rewrite Ho in Hnone.
      exists o. split; [done|]. split; [exact Ho|].
      intros Hrange. by rewrite bool_decide_eq_true_2 in Hnone.
    + unfold FA.IncOffset in Hnone. simpl in Hnone.
      by rewrite bool_decide_eq_false_2 in Hnone.
Qed.

Lemma FA_calls_keep_tag_and_union_witness :
  (FA.consistent (FA.SetIsRegisterDereferenced (FA.SetIsRegisterPlusOffset FA.default 31 0) 29) ∧
   is_Some (FA.GetOffset (FA.SetIsRegisterDereferenced (FA.SetIsRegisterPlusOffset FA.default 31 0) 29)) ∧
   is_Some (FA.GetRegisterNumber (FA.SetIsRegisterDereferenced (FA.SetIsRegisterPlusOffset FA.default 31 0) 29)) ∧
   is_Some (FA.GetDWARFExpr (FA.SetIsRegisterDereferenced (FA.SetIsRegisterPlusOffset FA.default 31 0) 29)) ∧
   is_Some (FA.GetDWARFExpressionBytes (FA.SetIsRegisterDereferenced (FA.SetIsRegisterPlusOffset FA.default 31 0) 29)) ∧
   is_Some (FA.GetDWARFExpressionLength (FA.SetIsRegisterDereferenced (FA.SetIsRegisterPlusOffset FA.default 31 0) 29))) ∧
  (∃ o, FA.GetValueType (FA.SetIsRegisterPlusOffset FA.default 31 INT32_MAX)
          = FA.isRegisterPlusOffset ∧
        FA.GetOffset (FA.SetIsRegisterPlusOffset FA.default 31 INT32_MAX) = Some o ∧
        ¬ (INT32_MIN <= o + 1 <= INT32_MAX)).
Proof.
  split.
  - apply (FA_calls_keep_tag_and_union four_calls FA.default
             (FA.SetIsRegisterDereferenced
                (FA.SetIsRegisterPlusOffset FA.default 31 0) 29) 0 I).
    reflexivity.
  - apply (FA_calls_keep_tag_and_union []
             (FA.SetIsRegisterPlusOffset FA.default 31 INT32_MAX)
             (FA.SetIsRegisterPlusOffset FA.default 31 INT32_MAX) 1).
    + unfold FA.consistent. simpl. eauto.
    + reflexivity.
Defined.

End TagAndUnion.

(** ** Predicates and accessors *)

Section PredicatesAndAccessors.

Implicit Types (l : ARL.t) (v : FA.t).

(** X3.  Each of the eleven predicates of a register location answers true
exactly on the tag it is named after, every tag has its predicate, and so
exactly one predicate answers true on any location. *)
Theorem ARL_predicates_name_the_tag l :
  Forall (λ kf, kf.2 l = bool_decide (ARL.GetLocationType l = kf.1))
    ARL.predicates ∧
  (∀ k, k ∈ ARL.predicates.*1) ∧
  ARL.holding l = 1%nat.
Proof.
  split_and!.
  - repeat constructor.
  - intros k. destruct k; by apply (bool_decide_unpack _).
  - destruct l as [k u]. by destruct k.
Qed.

(** X4.  Each of the five predicates of a frame-address value answers true
exactly on the tag it is named after; isRaSearch is the one tag without a
predicate, so a return-address-search value answers false to all of them
and every other value answers true to exactly one. *)
Theorem FA_predicates_leave_out_RaSearch v :
  Forall (λ kf, kf.2 v = bool_decide (FA.GetValueType v = kf.1)) FA.predicates ∧
  (∀ k, k ∈ FA.predicates.*1 ↔ k ≠ FA.isRaSearch) ∧
  FA.holding v = (if bool_decide (FA.GetValueType v = FA.isRaSearch)
                  then 0 else 1)%nat ∧
  (∀ off, FA.holding (FA.SetRaSearch v off) = 0%nat).
Proof.
  split_and!.
  - repeat constructor.
  - intros k. destruct k; split; try done;
      try (intros _; by apply (bool_decide_unpack _)).
    intros Hin. by apply (bool_decide_pack _) in Hin.
  - destruct v as [k u]. by destruct k.
  - done.
Qed.

(** X13.  GetDWARFExpr writes to its two out-parameters what
GetDWARFExpressionBytes and GetDWARFExpressionLength return, on every
register location and on every frame-address value. *)
Theorem expression_accessors_agree l v :
  ARL.GetDWARFExpr l
    = (p ← ARL.GetDWARFExpressionBytes l;
       n ← ARL.GetDWARFExpressionLength l; Some (p, n)) ∧
  FA.GetDWARFExpr v
    = (p ← FA.GetDWARFExpressionBytes v;
       n ← FA.GetDWARFExpressionLength v; Some (p, n)).
Proof.
  split.
  - destruct l as [k u]. by destruct k, u.
  - destruct v as [k u]. by destruct k, u.
Qed.

(** X14.  The accessors never report two kinds of payload at once.  When
one of GetOffset, GetRegisterNumber and GetDWARFExpr of a register location
departs from its fallback, the other two return theirs; when GetDWARFExpr of
a frame-address value departs from its fallback, GetOffset and
GetRegisterNumber return theirs. *)
Theorem payload_kinds_exclude_each_other l v :
  (ARL.GetOffset l ≠ Some 0 →
     ARL.GetRegisterNumber l = Some LLDB_INVALID_REGNUM ∧
     ARL.GetDWARFExpr l = Some (nullptr, 0)) ∧
  (ARL.GetRegisterNumber l ≠ Some LLDB_INVALID_REGNUM →
     ARL.GetOffset l = Some 0 ∧ ARL.GetDWARFExpr l = Some (nullptr, 0)) ∧
  (ARL.GetDWARFExpr l ≠ Some (nullptr, 0) →
     ARL.GetOffset l = Some 0 ∧
     ARL.GetRegisterNumber l = Some LLDB_INVALID_REGNUM) ∧
  (FA.GetDWARFExpr v ≠ Some (nullptr, 0) →
     FA.GetOffset v = Some 0 ∧
     FA.GetRegisterNumber v = Some LLDB_INVALID_REGNUM).
Proof.
  destruct l as [k u], v as [k' u']. split_and!; intros Hne.
  1-3: destruct k; try done; by destruct Hne.
  destruct k'; try done; by destruct Hne.
Qed.

Lemma payload_kinds_exclude_each_other_witness :
  (ARL.GetRegisterNumber (ARL.SetIsAFAPlusOffset ARL.default (-16))
     = Some LLDB_INVALID_REGNUM ∧
   ARL.GetDWARFExpr (ARL.SetIsAFAPlusOffset ARL.default (-16))
     = Some (nullptr, 0)) ∧
  (FA.GetOffset (FA.SetIsDWARFExpression sp_plus_16 4096 12) = Some 0 ∧
   FA.GetRegisterNumber (FA.SetIsDWARFExpression sp_plus_16 4096 12)
     = Some LLDB_INVALID_REGNUM).
Proof.
  destruct (payload_kinds_exclude_each_other
              (ARL.SetIsAFAPlusOffset ARL.default (-16))
              (FA.SetIsDWARFExpression sp_plus_16 4096 12))
    as (Hoff & _ & _ & Hexpr).
  split; [apply Hoff | apply Hexpr]; discriminate.
Defined.

(** X15.  The last setter call on a register location decides what the
accessors return, whatever the calls before it: after any sequence of the
setters of the header, the tag and the payload read back are those of the
last call.  SetUnspecified, SetUndefined and SetSame write the tag only, so
GetConstant returns after them what it returned before. *)
Theorem ARL_last_setter_decides ms m l :
  RegisterRule.observe (ARL.mutate_all (ms ++ [m]) l)
    = Some (RegisterRule.of_mutation m) ∧
  ARL.GetConstant (ARL.SetUnspecified l) = ARL.GetConstant l ∧
  ARL.GetConstant (ARL.SetUndefined l) = ARL.GetConstant l ∧
  ARL.GetConstant (ARL.SetSame l) = ARL.GetConstant l.
Proof.
  split; [|done]. unfold ARL.mutate_all. rewrite foldl_app. simpl.
  by destruct m.
Qed.

(** X5.  Each setter of a frame-address value fully decides what the
accessors return afterwards, whatever the value held before: the tag, and
with it the register number and offset, the register number, the
expression, the search offset or the constant that was given, an expression
length as far as the uint16_t member holds it. *)
Theorem FA_setters_round_trip fv prev :
  FrameAddressValue.fits fv →
  FrameAddressValue.observe (FrameAddressValue.set fv prev) = Some fv.
Proof.
  destruct prev as [k u]. destruct fv; simpl; intros Hfits;
    unfold FrameAddressValue.observe; simpl; try reflexivity.
  - unfold FA.GetRegisterNumber. simpl. by destruct u.
  - unfold to_uint16. by rewrite Z.mod_small.
Qed.

Lemma FA_setters_round_trip_witness :
  FrameAddressValue.observe
    (FrameAddressValue.set (FrameAddressValue.RegisterPlusOffset 31 INT32_MIN)
       unspecified_after_constant)
  = Some (FrameAddressValue.RegisterPlusOffset 31 INT32_MIN) ∧
  FrameAddressValue.observe
    (FrameAddressValue.set (FrameAddressValue.Expression 4096 65535) sp_plus_16)
  = Some (FrameAddressValue.Expression 4096 65535).
Proof.
  split.
  - apply (FA_setters_round_trip
             (FrameAddressValue.RegisterPlusOffset 31 INT32_MIN)). exact I.
  - apply (FA_setters_round_trip (FrameAddressValue.Expression 4096 65535)).
    done.
Defined.

(** X6.  FAValue::SetIsDWARFExpression takes a uint32_t length and keeps its
low 16 bits: the pointer is read back as given, the length read back is
below 65536 and is the length given exactly when that was below 65536. *)
Theorem FA_expression_length_narrowed v opcodes len :
  0 <= len <= UINT32_MAX →
  FA.GetDWARFExpressionBytes (FA.SetIsDWARFExpression v opcodes len)
    = Some opcodes ∧
  FA.GetDWARFExpressionLength (FA.SetIsDWARFExpression v opcodes len)
    = Some (len mod 65536) ∧
  FA.GetDWARFExpr (FA.SetIsDWARFExpression v opcodes len)
    = Some (opcodes, len mod 65536) ∧
  0 <= len mod 65536 < 65536 ∧
  (len mod 65536 = len ↔ len < 65536).
Proof.
  intros Hlen.
  pose proof (Z.mod_pos_bound len 65536 ltac:(lia)) as Hbound.
  split_and!; try reflexivity; try lia.
  split; intros H; [lia | apply Z.mod_small; lia].
Qed.

Lemma FA_expression_length_narrowed_witness :
  FA.GetDWARFExpressionBytes (FA.SetIsDWARFExpression FA.default 4096 65537)
    = Some 4096 ∧
  FA.GetDWARFExpressionLength (FA.SetIsDWARFExpression FA.default 4096 65537)
    = Some (65537 mod 65536) ∧
  FA.GetDWARFExpr (FA.SetIsDWARFExpression FA.default 4096 65537)
    = Some (4096, 65537 mod 65536) ∧
  0 <= 65537 mod 65536 < 65536 ∧
  (65537 mod 65536 = 65537 ↔ 65537 < 65536).
Proof.
  apply (FA_expression_length_narrowed FA.default 4096 65537).
  vm_compute. split; discriminate.
Defined.

(** X7.  The offset calls of a frame-address value compose, for arguments
that are int32_t values: two IncOffset calls are one IncOffset by the sum
when the sum is an int32_t, IncOffset by the opposite undoes an IncOffset
when the opposite is an int32_t, IncOffset is SetOffset to the sum of the
offset and the increment, and of two SetOffset calls, or an IncOffset and a
SetOffset, the last decides. *)
Theorem FA_offset_calls_compose v d1 d2 a b :
  is_int32 d1 → is_int32 d2 → is_int32 a → is_int32 b →
  (∀ v1 v2, is_int32 (d1 + d2) →
            FA.IncOffset v d1 = Some v1 → FA.IncOffset v1 d2 = Some v2 →
            FA.IncOffset v (d1 + d2) = Some v2) ∧
  (∀ o v1, is_int32 (- d1) →
           FA.GetValueType v = FA.isRegisterPlusOffset →
           FA.GetOffset v = Some o → is_int32 o →
           FA.IncOffset v d1 = Some v1 →
           FA.IncOffset v1 (- d1) = Some v) ∧
  (∀ o, FA.GetValueType v = FA.isRegisterPlusOffset →
        FA.GetOffset v = Some o → is_int32 (o + d1) →
        FA.IncOffset v d1 = Some (FA.SetOffset v (o + d1)) ∧
        FA.GetOffset (FA.SetOffset v (o + d1)) = Some (o + d1)) ∧
  FA.SetOffset (FA.SetOffset v a) b = FA.SetOffset v b ∧
  (∀ v1, FA.IncOffset v d1 = Some v1 → FA.SetOffset v1 a = FA.SetOffset v a).
Proof.
  intros _ _ _ _. unfold is_int32. destruct v as [k u].
  destruct (decide (k = FA.isRegisterPlusOffset)) as [->|Hk].
  - unfold FA.IncOffset, FA.SetOffset, FA.GetOffset, FA.GetValueType. simpl.
    destruct u as [r [o|]| | |]; simpl; split_and!; try done.
    + intros v1 v2 _. case_bool_decide as H1; [|done]. intros [= <-]. simpl.
      case_bool_decide as H2; [|done]. intros [= <-].
      rewrite bool_decide_eq_true_2 by lia. by rewrite Z.add_assoc.
    + intros o' v1 _ _ [= <-] Ho. case_bool_decide as H1; [|done].
      intros [= <-]. simpl. rewrite bool_decide_eq_true_2 by lia.
      by rewrite Z.add_opp_r, Z.add_simpl_r.
    + intros o' _ [= <-] Hrange. by rewrite bool_decide_eq_true_2.
    + intros v1. case_bool_decide; [|done]. by intros [= <-].
  - unfold FA.IncOffset, FA.SetOffset, FA.GetValueType. simpl.
    rewrite !bool_decide_eq_false_2 by done. simpl.
    rewrite ?bool_decide_eq_false_2 by done.
    split_and!; try done.
    + intros v1 v2 _ Hv1. injection Hv1 as <-. simpl.
      by rewrite bool_decide_eq_false_2.
    + intros v1 Hv1. injection Hv1 as <-. simpl.
      by rewrite bool_decide_eq_false_2.
Qed.

Lemma FA_offset_calls_compose_witness :
  FA.IncOffset sp_plus_16 (8 + (-24))
    = Some (FA.SetIsRegisterPlusOffset FA.default 31 0) ∧
  FA.IncOffset (FA.SetIsRegisterPlusOffset FA.default 31 24) (- 8)
    = Some sp_plus_16 ∧
  (FA.IncOffset sp_plus_16 8 = Some (FA.SetOffset sp_plus_16 (16 + 8)) ∧
   FA.GetOffset (FA.SetOffset sp_plus_16 (16 + 8)) = Some (16 + 8)).
Proof.
  assert (Hint : ∀ z, bool_decide (is_int32 z) = true → is_int32 z)
    by (intros z; apply bool_decide_eq_true_1).
  destruct (FA_offset_calls_compose sp_plus_16 8 (-24) 0 0
              (Hint 8 eq_refl) (Hint (-24) eq_refl) (Hint 0 eq_refl)
              (Hint 0 eq_refl))
    as (Hadd & Hundo & Hset & _).
  split; [|split].
  - apply (Hadd (FA.SetIsRegisterPlusOffset FA.default 31 24));
      [apply Hint | |]; reflexivity.
  - apply (Hundo 16); [apply Hint | | | apply Hint |]; reflexivity.
  - apply Hset; [| | apply Hint]; reflexivity.
Defined.

End PredicatesAndAccessors.

(** ** Sliding the code offsets *)

Section Slide.

Implicit Types (row : Row.t) (rows : list Row.t).





Section Shift.

(** An order of the code offsets that a common shift keeps. *)
Context (Rz : relation Z).
Hypothesis Rz_shift : ∀ x y d, Rz x y → Rz (x + d) (y + d).


End Shift.



End Slide.

(** ** The members of a plan *)

Section PlanMembers.

Implicit Types (p q : UP.t) (c : UP.setter_call).

(** X10.  Clear() keeps of a plan its return-address register and nothing
else: a second Clear() changes nothing, two plans are the same after Clear()
exactly when their return-address registers are the same, and the cleared
plan is a plan of the constructor exactly when the return-address register
is LLDB_INVALID_REGNUM and the kind asked for is eRegisterKindDWARF. *)
Theorem Clear_keeps_only_return_register p q reg_kind :
  UP.Clear (UP.Clear p) = UP.Clear p ∧
  (UP.Clear p = UP.Clear q ↔
     UP.GetReturnAddressRegister p = UP.GetReturnAddressRegister q) ∧
  (UP.Clear p = UP.UnwindPlan reg_kind ↔
     reg_kind = UP.eRegisterKindDWARF ∧
     UP.GetReturnAddressRegister p = LLDB_INVALID_REGNUM) ∧
  UP.Clear (UP.UnwindPlan reg_kind) = UP.UnwindPlan UP.eRegisterKindDWARF ∧
  UP.GetInitialCFARegister (UP.Clear p) = Some LLDB_INVALID_REGNUM.
Proof.
  split_and!; try reflexivity.
  - split.
    + intros Heq. by apply (f_equal UP.GetReturnAddressRegister) in Heq.
    + unfold UP.GetReturnAddressRegister, UP.Clear. by intros ->.
  - split.
    + intros Heq. split.
      * by apply (f_equal UP.GetRegisterKind) in Heq.
      * by apply (f_equal UP.GetReturnAddressRegister) in Heq.
    + unfold UP.GetReturnAddressRegister, UP.Clear, UP.UnwindPlan.
      by intros [-> ->].
Qed.

(** X11.  GetInitialCFARegister looks at the CFA value of the first row
only: it is the register given to SetIsRegisterPlusOffset or
SetIsRegisterDereferenced when the CFA of the first row was set by one of
them, also after IncOffset or SetOffset on that value, and it is
LLDB_INVALID_REGNUM when the plan has no row and when the CFA of the first
row has any other tag, so that the sentinel does not tell these two apart. *)
Theorem GetInitialCFARegister_first_row p front rest :
  (UP.m_row_list p = [] →
     UP.GetInitialCFARegister p = Some LLDB_INVALID_REGNUM) ∧
  (UP.m_row_list p = front :: rest →
     (∀ rest',
        UP.GetInitialCFARegister (UP.with_row_list p (front :: rest'))
        = UP.GetInitialCFARegister p) ∧
     (FA.is_register_tag (FA.GetValueType (Row.GetCFAValue front)) = false →
        UP.GetInitialCFARegister p = Some LLDB_INVALID_REGNUM) ∧
     (∀ prev r off,
        Row.GetCFAValue front = FA.SetIsRegisterPlusOffset prev r off →
        UP.GetInitialCFARegister p = Some r) ∧
     (∀ prev r,
        Row.GetCFAValue front = FA.SetIsRegisterDereferenced prev r →
        UP.GetInitialCFARegister p = Some r) ∧
     (∀ delta cfa,
        FA.IncOffset (Row.GetCFAValue front) delta = Some cfa →
        UP.GetInitialCFARegister
          (UP.with_row_list p (Row.with_cfa_value front cfa :: rest))
        = UP.GetInitialCFARegister p) ∧
     (∀ off,
        FA.consistent (Row.GetCFAValue front) →
        UP.GetInitialCFARegister
          (UP.with_row_list p
             (Row.with_cfa_value front (FA.SetOffset (Row.GetCFAValue front) off)
              :: rest))
        = UP.GetInitialCFARegister p)).
Proof.
  unfold UP.GetInitialCFARegister. split; intros ->; [done|]. simpl.
  split_and!.
  - done.
  - unfold FA.GetRegisterNumber, FA.GetValueType.
    by destruct (FA.m_type (Row.GetCFAValue front)).
  - by intros prev r off ->.
  - intros prev r ->. unfold FA.GetRegisterNumber. simpl.
    by destruct (FA.m_value prev).
  - intros delta cfa.
    destruct (Row.GetCFAValue front) as [k u]. unfold FA.IncOffset. simpl.
    case_bool_decide as Hk; [|by intros [= <-]]. subst k.
    destruct u as [r [o|]| | |]; simpl; try done.
    case_bool_decide; [|done]. by intros [= <-].
  - intros off.
    destruct (Row.GetCFAValue front) as [k u].
    unfold FA.consistent, FA.SetOffset. simpl.
    case_bool_decide as Hk; [|done]. subst k. intros [[r Hr] _].
    by destruct u.
Qed.

Lemma GetInitialCFARegister_first_row_witness :
  UP.GetInitialCFARegister (UP.Clear example_plan) = Some LLDB_INVALID_REGNUM ∧
  UP.GetInitialCFARegister
    (UP.with_row_list example_plan [row_with_cfa_ra_search; row_at_4])
    = Some LLDB_INVALID_REGNUM ∧
  UP.GetInitialCFARegister
    (UP.with_row_list example_plan [row_with_cfa_sp_16; row_at_4])
    = Some 31.
Proof.
  split; [|split].
  - destruct (GetInitialCFARegister_first_row (UP.Clear example_plan)
                row_at_0 []) as [Hempty _].
    apply Hempty. reflexivity.
  - destruct (GetInitialCFARegister_first_row
                (UP.with_row_list example_plan [row_with_cfa_ra_search; row_at_4])
                row_with_cfa_ra_search [row_at_4]) as [_ Hfirst].
    destruct (Hfirst eq_refl) as (_ & Hother & _). apply Hother. reflexivity.
  - destruct (GetInitialCFARegister_first_row
                (UP.with_row_list example_plan [row_with_cfa_sp_16; row_at_4])
                row_with_cfa_sp_16 [row_at_4]) as [_ Hfirst].
    destruct (Hfirst eq_refl) as (_ & _ & Hrpo & _).
    apply (Hrpo FA.default 31 16). reflexivity.
Defined.

Lemma call_all_cons c cs p : UP.call_all (c :: cs) p = UP.call_all cs (UP.call c p).
Proof. reflexivity. Qed.

(** X12.  The setters of a plan that the header defines assign one member
each.  After any sequence of setter calls the getter of a member returns
what the last call of its setter was given; a setter leaves the getters of
the other members as they were, two setters of different members give the
same plan in either order, of two setters of the same member the later one
decides, and no sequence of them changes the rows, the source name,
GetRowCount or GetInitialCFARegister. *)
Theorem plan_setters_assign_one_member c1 c2 cs p kind regnum ranges flag :
  (UP.GetRegisterKind (UP.call_all (cs ++ [UP.CallSetRegisterKind kind]) p)
     = kind ∧
   UP.GetReturnAddressRegister
     (UP.call_all (cs ++ [UP.CallSetReturnAddressRegister regnum]) p) = regnum ∧
   UP.m_plan_valid_ranges
     (UP.call_all (cs ++ [UP.CallSetPlanValidAddressRanges ranges]) p) = ranges ∧
   UP.GetSourcedFromCompiler
     (UP.call_all (cs ++ [UP.CallSetSourcedFromCompiler flag]) p) = flag ∧
   UP.GetUnwindPlanValidAtAllInstructions
     (UP.call_all (cs ++ [UP.CallSetUnwindPlanValidAtAllInstructions flag]) p)
     = flag ∧
   UP.GetUnwindPlanForSignalTrap
     (UP.call_all (cs ++ [UP.CallSetUnwindPlanForSignalTrap flag]) p) = flag) ∧
  ((UP.member c1 ≠ 2%nat →
      UP.GetRegisterKind (UP.call c1 p) = UP.GetRegisterKind p) ∧
   (UP.member c1 ≠ 3%nat →
      UP.GetReturnAddressRegister (UP.call c1 p) = UP.GetReturnAddressRegister p) ∧
   (UP.member c1 ≠ 1%nat →
      UP.m_plan_valid_ranges (UP.call c1 p) = UP.m_plan_valid_ranges p) ∧
   (UP.member c1 ≠ 5%nat →
      UP.GetSourcedFromCompiler (UP.call c1 p) = UP.GetSourcedFromCompiler p) ∧
   (UP.member c1 ≠ 6%nat →
      UP.GetUnwindPlanValidAtAllInstructions (UP.call c1 p)
      = UP.GetUnwindPlanValidAtAllInstructions p) ∧
   (UP.member c1 ≠ 7%nat →
      UP.GetUnwindPlanForSignalTrap (UP.call c1 p)
      = UP.GetUnwindPlanForSignalTrap p)) ∧
  (UP.member c1 ≠ UP.member c2 →
     UP.call c1 (UP.call c2 p) = UP.call c2 (UP.call c1 p)) ∧
  (UP.member c1 = UP.member c2 → UP.call c1 (UP.call c2 p) = UP.call c1 p) ∧
  UP.m_row_list (UP.call_all cs p) = UP.m_row_list p ∧
  UP.m_source_name (UP.call_all cs p) = UP.m_source_name p ∧
  UP.GetRowCount (UP.call_all cs p) = UP.GetRowCount p ∧
  UP.GetInitialCFARegister (UP.call_all cs p) = UP.GetInitialCFARegister p.
Proof.
  assert (Hrows : ∀ cs p, UP.m_row_list (UP.call_all cs p) = UP.m_row_list p).
  { clear. intros cs. induction cs as [|c cs IH]; intros p; [done|].
    rewrite call_all_cons, IH. by destruct c. }
  split_and!.
  1-6: unfold UP.call_all; by rewrite foldl_app.
  1-6: by destruct c1.
  - destruct c1, c2; simpl; intros Hne; done.
  - destruct c1, c2; simpl; intros Heq; done.
  - apply Hrows.
  - revert p. induction cs as [|c cs IH]; intros p; [done|].
    rewrite call_all_cons, IH. by destruct c.
  - unfold UP.GetRowCount. by rewrite Hrows.
  - unfold UP.GetInitialCFARegister. by rewrite Hrows.
Qed.

Lemma plan_setters_assign_one_member_witness :
  UP.GetRegisterKind (UP.call (UP.CallSetReturnAddressRegister 30) example_plan)
    = UP.GetRegisterKind example_plan ∧
  UP.call (UP.CallSetReturnAddressRegister 30)
    (UP.call (UP.CallSetRegisterKind (UP.eRegisterKindOther 0)) example_plan)
  = UP.call (UP.CallSetRegisterKind (UP.eRegisterKindOther 0))
      (UP.call (UP.CallSetReturnAddressRegister 30) example_plan) ∧
  UP.call (UP.CallSetReturnAddressRegister 30)
    (UP.call (UP.CallSetReturnAddressRegister 14) example_plan)
  = UP.call (UP.CallSetReturnAddressRegister 30) example_plan ∧
  UP.GetReturnAddressRegister
    (UP.call_all
       ([UP.CallSetReturnAddressRegister 14;
         UP.CallSetRegisterKind (UP.eRegisterKindOther 0)]
        ++ [UP.CallSetReturnAddressRegister 30]) example_plan) = 30.
Proof.
  destruct (plan_setters_assign_one_member (UP.CallSetReturnAddressRegister 30)
              (UP.CallSetRegisterKind (UP.eRegisterKindOther 0))
              [UP.CallSetReturnAddressRegister 14;
               UP.CallSetRegisterKind (UP.eRegisterKindOther 0)]
              example_plan UP.eRegisterKindDWARF 30 [] UP.eLazyBoolCalculate)
    as ((_ & Hlast & _) & (Hframe & _) & Hcommute & _).
  destruct (plan_setters_assign_one_member (UP.CallSetReturnAddressRegister 30)
              (UP.CallSetReturnAddressRegister 14) [] example_plan
              UP.eRegisterKindDWARF 30 [] UP.eLazyBoolCalculate)
    as (_ & _ & _ & Hsame & _).
  split_and!.
  - apply Hframe. discriminate.
  - apply Hcommute. discriminate.
  - apply Hsame. reflexivity.
  - exact Hlast.
Defined.

End PlanMembers.
